(** * Townhall insights: transcript normalisation and insight aggregation

    A shallow embedding of the Python sources of the townhall-insights
    function app (shared/ai_enrichment.py, shared/data_storage.py,
    shared/transcript_parser.py and the chat / insights_* endpoints),
    together with the properties stated about them.

    Conventions of the embedding:
    - Python [str] is [string]; characters are the 7-bit ones.
    - Python [float] is [pyfloat]: an exact rational, the two infinities or
      NaN.  Binary rounding of IEEE doubles is not modelled.
    - a [dict] whose iteration order matters is an insertion-ordered
      association list ([odict]); a record-like [dict] is a [gmap].
    - a call that may raise returns a [result]; [str(e)] is the message. *)

From Stdlib Require Import QArith Qminmax Qround ZArith List String Ascii Bool Lia Lqa.
From Stdlib Require Import Sorting.Sorted Sorting.Permutation.
From stdpp Require Import gmap strings list pretty.

Local Open Scope string_scope.
Local Open Scope list_scope.

(** ** Exceptions as values *)

Inductive result (A : Type) : Type :=
| Ok (a : A)
| Raise (msg : string).
Arguments Ok {A} a.
Arguments Raise {A} msg.

#[global] Instance result_ret : MRet result := λ A a, Ok a.

#[global] Instance result_bind : MBind result := λ A B k r,
  match r with
  | Ok a => k a
  | Raise m => Raise m
  end.

(** ** Python string operations *)

Module PyStr.

(** [str.lower] on one character. *)
Definition lower_char (c : ascii) : ascii :=
  let n := nat_of_ascii c in
  if (65 <=? n)%nat && (n <=? 90)%nat then ascii_of_nat (n + 32) else c.

Definition upper_char (c : ascii) : ascii :=
  let n := nat_of_ascii c in
  if (97 <=? n)%nat && (n <=? 122)%nat then ascii_of_nat (n - 32) else c.

Definition is_alpha (c : ascii) : bool :=
  let n := nat_of_ascii c in
  ((65 <=? n)%nat && (n <=? 90)%nat) || ((97 <=? n)%nat && (n <=? 122)%nat).

Fixpoint lower (s : string) : string :=
  match s with
  | EmptyString => EmptyString
  | String c s' => String (lower_char c) (lower s')
  end.

(** [needle in hay] *)
Fixpoint contains (needle hay : string) : bool :=
  String.prefix needle hay ||
  match hay with
  | EmptyString => false
  | String _ hay' => contains needle hay'
  end.

(** Whitespace removed by [str.strip()]. *)
Definition is_space (c : ascii) : bool :=
  let n := nat_of_ascii c in
  ((9 <=? n)%nat && (n <=? 13)%nat) || ((28 <=? n)%nat && (n <=? 32)%nat).

Fixpoint lstrip (s : string) : string :=
  match s with
  | EmptyString => EmptyString
  | String c s' => if is_space c then lstrip s' else s
  end.

Definition rstrip (s : string) : string :=
  String.rev (lstrip (String.rev s)).

Definition strip (s : string) : string := rstrip (lstrip s).

(** [s.split(sep, 1)] when [sep] occurs in [s]: the text before the first
    separator and the text after it; [None] when [sep] does not occur
    (Python then returns the one-element list [[s]]). *)
Fixpoint split_first (sep : ascii) (s : string) : option (string * string) :=
  match s with
  | EmptyString => None
  | String c s' =>
      if Ascii.eqb c sep then Some (EmptyString, s')
      else match split_first sep s' with
           | Some (before, after) => Some (String c before, after)
           | None => None
           end
  end.

(** [s.split(sep)] *)
Fixpoint split (sep : ascii) (s : string) : list string :=
  match s with
  | EmptyString => [EmptyString]
  | String c s' =>
      if Ascii.eqb c sep then EmptyString :: split sep s'
      else match split sep s' with
           | w :: ws => String c w :: ws
           | [] => [String c EmptyString]
           end
  end.

(** [s.replace(c, by)] for a one-character pattern. *)
Fixpoint replace_char (c : ascii) (by_ : string) (s : string) : string :=
  match s with
  | EmptyString => EmptyString
  | String d s' =>
      if Ascii.eqb d c then by_ +:+ replace_char c by_ s'
      else String d (replace_char c by_ s')
  end.

(** [s[:n]] *)
Fixpoint take (n : nat) (s : string) : string :=
  match n, s with
  | O, _ => EmptyString
  | S _, EmptyString => EmptyString
  | S n', String c s' => String c (take n' s')
  end.

(** [sep.join(l)] *)
Fixpoint join (sep : string) (l : list string) : string :=
  match l with
  | [] => EmptyString
  | [s] => s
  | s :: l' => s +:+ sep +:+ join sep l'
  end.

(** [str.title()]: the first letter of every run of letters in upper
    case, the others in lower case. *)
Fixpoint title_go (prev_cased : bool) (s : string) : string :=
  match s with
  | EmptyString => EmptyString
  | String c s' =>
      if is_alpha c
      then String (if prev_cased then lower_char c else upper_char c)
                  (title_go true s')
      else String c (title_go false s')
  end.

Definition title (s : string) : string := title_go false s.

End PyStr.

(** ** Python floats *)

Inductive pyfloat : Type :=
| PyFin (q : Q)
| PyInf (negative : bool)
| PyNaN.

(** [x < y] on floats; every comparison with NaN is false. *)
Definition py_ltb (x y : pyfloat) : bool :=
  match x, y with
  | PyNaN, _ | _, PyNaN => false
  | PyFin a, PyFin b => negb (Qle_bool b a)
  | PyFin _, PyInf negative => negb negative
  | PyInf negative, PyFin _ => negative
  | PyInf n1, PyInf n2 => n1 && negb n2
  end.

(** [min(a, b)]: the builtin keeps [a] unless [b < a]. *)
Definition py_min (a b : pyfloat) : pyfloat := if py_ltb b a then b else a.

(** [max(a, b)]: the builtin keeps [a] unless [b > a]. *)
Definition py_max (a b : pyfloat) : pyfloat := if py_ltb a b then b else a.

(** [lo <= x <= hi] for a finite [x]. *)
Definition in_range (lo hi : Q) (x : pyfloat) : Prop :=
  match x with
  | PyFin q => (lo <= q)%Q ∧ (q <= hi)%Q
  | _ => False
  end.

(** ** Records handled by the pipeline *)

(** The entity breakdown, at the declared type [Dict[str, List[str]]]. *)
Record entities : Type := Entities {
  persons : list string;
  organizations : list string;
  locations : list string;
  other : list string
}.

Definition no_entities : entities := Entities [] [] [] [].

(** Values held by an utterance dictionary. *)
Inductive value : Type :=
| VNone
| VStr (s : string)
| VFloat (x : pyfloat)
| VList (l : list string)
| VEntities (e : entities).

(** ** JSON values *)

#[warnings="-register-all"]
Inductive json : Type :=
| JNull
| JBool (b : bool)
| JInt (z : Z)
| JNum (x : pyfloat)
| JStr (s : string)
| JArr (items : list json)
| JObj (members : list (string * json)).

Definition jopt (o : option string) : json :=
  match o with Some s => JStr s | None => JNull end.

(** ** The language-model collaborator

    The service is an oracle: the answer to a call may depend on the
    position of the call in the run and on what is asked.  An answer is
    either a raised error or the [content] of the first choice. *)

Inductive completion : Type :=
| ChatRaised (msg : string)
| ChatContent (text : string).

Inductive embedding_response : Type :=
| EmbedRaised (msg : string)
| EmbedData (data : list (list Q)).

Inductive prompt : Type :=
| SentimentPrompt (text : value)
| EntityPrompt (text : value)
| IntentPrompt (question : string)
| AnswerPrompt (question : string) (intent data : json) (context : string).

Record Collaborator : Type := {
  chat : nat → prompt → completion;
  embed : nat → string → embedding_response
}.

(** ** shared/ai_enrichment.py *)

Section Enrichment.

(** The builtin [float()] on a string, [None] for [ValueError]. *)
Variable py_float : string → option pyfloat.

(** [json.loads] followed by the four [.get(key, [])] reads;
    [None] when the text is not a JSON object. *)
Variable json_entities : string → option entities.

Variable openai_client : Collaborator.

Definition analyze_sentiment (call : nat) (text : value) : pyfloat :=
  match chat openai_client call (SentimentPrompt text) with
  | ChatRaised _ => PyFin 0
  | ChatContent content =>
      let sentiment_text := PyStr.strip content in
      match py_float sentiment_text with
      | Some sentiment_score => py_max (PyFin (-1)) (py_min (PyFin 1) sentiment_score)
      | None =>
          let sentiment_text_lower := PyStr.lower sentiment_text in
          if PyStr.contains "positive" sentiment_text_lower then PyFin (1 # 2)
          else if PyStr.contains "negative" sentiment_text_lower then PyFin (- (1 # 2))
          else PyFin 0
      end
  end.

Definition extract_entities (call : nat) (text : value) : entities :=
  match chat openai_client call (EntityPrompt text) with
  | ChatRaised _ => no_entities
  | ChatContent content =>
      let entities_text := PyStr.strip content in
      match json_entities entities_text with
      | Some ents => ents
      | None => no_entities
      end
  end.

Definition topic_keywords : list (string * list string) :=
  [ ("sugar_reduction", ["sugar"; "sweetener"; "low sugar"; "zero sugar"]);
    ("packaging", ["packaging"; "bottle"; "can"; "container"; "rPET"]);
    ("sustainability", ["sustainable"; "environment"; "carbon"; "recycling"]);
    ("market_trends", ["market"; "trend"; "consumer"; "demand"]);
    ("operations", ["production"; "manufacturing"; "supply"; "logistics"]);
    ("innovation", ["innovation"; "new product"; "development"; "research"]) ].

(** [response.data[0].embedding] *)
Definition first_embedding (r : embedding_response) : result (list Q) :=
  match r with
  | EmbedRaised msg => Raise msg
  | EmbedData [] => Raise "list index out of range"
  | EmbedData (e :: _) => Ok e
  end.

(** The embedding loop, one call per utterance, from call number [call]. *)
Fixpoint collect_embeddings (call : nat) (utterances : list string)
  : result (list (list Q)) :=
  match utterances with
  | [] => Ok []
  | utterance :: rest =>
      e ← first_embedding (embed openai_client call utterance);
      es ← collect_embeddings (S call) rest;
      Ok (e :: es)
  end.

Definition match_topics (combined_text : string) : list string :=
  map fst
    (List.filter (λ entry, existsb (λ keyword, PyStr.contains keyword combined_text)
                                   (snd entry))
                 topic_keywords).

Definition generate_topics (call : nat) (utterances : list string) : list string :=
  match collect_embeddings call utterances with
  | Raise _ => ["general_discussion"]
  | Ok _ =>
      let combined_text := PyStr.lower (PyStr.join " " utterances) in
      match match_topics combined_text with
      | [] => ["general_discussion"]
      | topics => topics
      end
  end.

Definition department_of (organization : string) : string :=
  let org := PyStr.lower organization in
  if PyStr.contains "marketing" org then "Marketing"
  else if PyStr.contains "operations" org then "Operations"
  else if PyStr.contains "finance" org then "Finance"
  else "General".

Definition region_of (loc : string) : string :=
  let location := PyStr.lower loc in
  if PyStr.contains "north america" location || PyStr.contains "us" location
  then "North America"
  else if PyStr.contains "europe" location || PyStr.contains "emea" location
  then "EMEA"
  else if PyStr.contains "asia" location then "Asia Pacific"
  else "Global".

(** The body of the loop of [enrich_utterances]; the utterance at
    position [i] makes calls [2 i] and [2 i + 1]. *)
Definition enrich_utterance (i : nat) (utterance : gmap string value)
  : result (gmap string value) :=
  match utterance !! "content" with
  | None => Raise "'content'"
  | Some content =>
      let sentiment_score := analyze_sentiment (2 * i) content in
      let ents := extract_entities (2 * i + 1) content in
      let enriched_utterance :=
        <["entities" := VEntities ents]>
          (<["sentiment_score" := VFloat sentiment_score]> utterance) in
      let enriched_utterance :=
        match organizations ents with
        | org :: _ => <["department" := VStr (department_of org)]> enriched_utterance
        | [] => enriched_utterance
        end in
      let enriched_utterance :=
        match locations ents with
        | location :: _ => <["region" := VStr (region_of location)]> enriched_utterance
        | [] => enriched_utterance
        end in
      Ok enriched_utterance
  end.

Fixpoint enrich_from (i : nat) (utterances : list (gmap string value))
  : result (list (gmap string value)) :=
  match utterances with
  | [] => Ok []
  | utterance :: rest =>
      e ← enrich_utterance i utterance;
      es ← enrich_from (S i) rest;
      Ok (e :: es)
  end.

Definition enrich_utterances (utterances : list (gmap string value))
  : result (list (gmap string value)) :=
  enrich_from 0 utterances.

End Enrichment.

(** ** shared/transcript_parser.py *)

(** A cue as the webvtt library hands it over. *)
Record caption : Type := Caption {
  cap_start : string;
  cap_end : string;
  cap_text : string
}.

(** The fields of a parsed utterance that later stages read (the fresh
    [utterance_id] is left out). *)
Record raw_utterance : Type := RawUtterance {
  ru_speaker : string;
  ru_content : string;
  ru_start_time : string;
  ru_end_time : string;
  ru_duration : Q;
  ru_start_time_seconds : Q;
  ru_end_time_seconds : Q
}.

(** [s.split(sep)] for a separator of several characters; [skip] counts
    the characters of a separator just matched that are still to pass. *)
Fixpoint split_str_go (sep : string) (skip : nat) (s : string) : list string :=
  match s with
  | EmptyString => [EmptyString]
  | String c s' =>
      match skip with
      | S k => split_str_go sep k s'
      | O =>
          if String.prefix sep s
          then EmptyString :: split_str_go sep (String.length sep - 1) s'
          else match split_str_go sep 0 s' with
               | w :: ws => String c w :: ws
               | [] => [String c EmptyString]
               end
      end
  end.

Definition split_str (sep s : string) : list string := split_str_go sep 0 s.

(** [content.split(':', 1)] *)
Definition split_colon_once (content : string) : list string :=
  match PyStr.split_first ":" content with
  | Some (before, after) => [before; after]
  | None => [content]
  end.

Section TranscriptParser.

(** The builtin [int()] on a string, [None] for [ValueError]. *)
Variable py_int : string → option Z.

Definition time_to_seconds (time_str : string) : Q :=
  match PyStr.split ":" time_str with
  | [p0; p1; p2] =>
      match py_int p0, py_int p1 with
      | Some hours, Some minutes =>
          match PyStr.split "." p2 with
          | [] => 0
          | [s0] =>
              match py_int s0 with
              | Some seconds => inject_Z (hours * 3600 + minutes * 60 + seconds)
              | None => 0
              end
          | s0 :: s1 :: _ =>
              match py_int s0, py_int s1 with
              | Some seconds, Some milliseconds =>
                  inject_Z (hours * 3600 + minutes * 60 + seconds)
                  + inject_Z milliseconds / 1000
              | _, _ => 0
              end
          end
      | _, _ => 0
      end
  | _ => 0
  end.

Definition make_utterance (speaker content start_time end_time : string)
  : raw_utterance :=
  {| ru_speaker := speaker;
     ru_content := content;
     ru_start_time := start_time;
     ru_end_time := end_time;
     ru_duration := time_to_seconds end_time - time_to_seconds start_time;
     ru_start_time_seconds := time_to_seconds start_time;
     ru_end_time_seconds := time_to_seconds end_time |}.

(** Body of the loop of [parse_vtt]: the speaker and content of a cue. *)
Definition vtt_speaker_content (text : string) : string * string :=
  let speaker := "Unknown Speaker" in
  let content := PyStr.strip text in
  if PyStr.contains ":" content
     && (length (split_colon_once content) =? 2)%nat
  then
    match split_colon_once content with
    | [potential_speaker; potential_content] =>
        if (String.length (PyStr.strip potential_speaker) <? 50)%nat
        then (PyStr.strip potential_speaker, PyStr.strip potential_content)
        else (speaker, content)
    | _ => (speaker, content)
    end
  else (speaker, content).

Definition vtt_caption_utterance (c : caption) : list raw_utterance :=
  let '(speaker, content) := vtt_speaker_content (cap_text c) in
  if String.eqb content "" then []
  else [make_utterance speaker content (cap_start c) (cap_end c)].

(** Body of the loop of [_parse_vtt_fallback] once the content line of a
    cue has been found. *)
Definition fallback_speaker_content (line : string) : string * string :=
  let content := PyStr.strip line in
  let speaker := "Unknown Speaker" in
  if PyStr.contains ":" content
     && (length (split_colon_once content) =? 2)%nat
  then
    match split_colon_once content with
    | [potential_speaker; potential_content] =>
        if (String.length (PyStr.strip potential_speaker) <? 50)%nat
        then (PyStr.strip potential_speaker, PyStr.strip potential_content)
        else (speaker, content)
    | _ => (speaker, content)
    end
  else (speaker, content).

Definition fallback_cue_utterance (start_time end_time line : string)
  : list raw_utterance :=
  let '(speaker, content) := fallback_speaker_content line in
  if String.eqb content "" then []
  else [make_utterance speaker content start_time end_time].

(** The [while] loop of [_parse_vtt_fallback] over the lines that remain.
    After a time-range line the inner loop passes blank lines and reads
    the next line as the cue text; scanning resumes after that line. *)
Fixpoint parse_vtt_fallback_lines (lines : list string) : list raw_utterance :=
  match lines with
  | [] => []
  | raw_line :: rest =>
      let line := PyStr.strip raw_line in
      if PyStr.contains "-->" line && PyStr.contains ":" line
      then
        match split_str " --> " line with
        | [start_time; end_time] =>
            (fix content_line (ls : list string) : list raw_utterance :=
               match ls with
               | [] => []
               | l :: ls' =>
                   if String.eqb (PyStr.strip l) ""
                   then content_line ls'
                   else (fallback_cue_utterance (PyStr.strip start_time)
                           (PyStr.strip end_time) l
                         ++ parse_vtt_fallback_lines ls')%list
               end) rest
        | _ => parse_vtt_fallback_lines rest
        end
      else parse_vtt_fallback_lines rest
  end.

Definition parse_vtt_fallback (file_content : string) : list raw_utterance :=
  parse_vtt_fallback_lines (PyStr.split "010" file_content).

(** [parse_vtt]; [library] is the outcome of [webvtt.from_string]. *)
Definition parse_vtt (library : result (list caption)) (file_content : string)
  : list raw_utterance :=
  match library with
  | Ok vtt => flat_map vtt_caption_utterance vtt
  | Raise _ => parse_vtt_fallback file_content
  end.

End TranscriptParser.

(** ** Insertion-ordered dictionaries with string keys *)

Module OD.

Definition odict (V : Type) : Type := list (string * V).

Fixpoint get {V} (k : string) (d : odict V) : option V :=
  match d with
  | [] => None
  | (k', v) :: d' => if String.eqb k k' then Some v else get k d'
  end.

(** [k in d] *)
Definition mem {V} (k : string) (d : odict V) : bool :=
  match get k d with Some _ => true | None => false end.

(** [d[k] = v]: overwrite in place, or add at the end. *)
Fixpoint set {V} (k : string) (v : V) (d : odict V) : odict V :=
  match d with
  | [] => [(k, v)]
  | (k', v') :: d' =>
      if String.eqb k k' then (k', v) :: d' else (k', v') :: set k v d'
  end.

(** In-place change of the value of an existing key ([d[k] += 1],
    [d[k].append(x)]). *)
Fixpoint alter {V} (f : V → V) (k : string) (d : odict V) : odict V :=
  match d with
  | [] => []
  | (k', v') :: d' =>
      if String.eqb k k' then (k', f v') :: d' else (k', v') :: alter f k d'
  end.

Definition keys {V} (d : odict V) : list string := map fst d.

(** [if k not in d: d[k] = init] followed by an in-place change of
    [d[k]]. *)
Definition upsert {V} (k : string) (init : V) (f : V → V) (d : odict V)
  : odict V :=
  alter f k (if negb (mem k d) then set k init d else d).

End OD.

(** ** Sorting as [sorted(..., key=..., reverse=True)]: stable, descending *)

Section SortDesc.
Context {A : Type} (key : A → nat).

Fixpoint insert_desc (x : A) (l : list A) : list A :=
  match l with
  | [] => [x]
  | y :: l' => if (key x <? key y)%nat then y :: insert_desc x l' else x :: l
  end.

Definition sort_desc (l : list A) : list A := fold_right insert_desc [] l.

(** The order of the result: keys do not increase. *)
Definition desc (a b : A) : Prop := (key b <= key a)%nat.
End SortDesc.

(** ** Rational helpers *)

Definition Qltb (a b : Q) : bool := negb (Qle_bool b a).

(** [sum(l)] *)
Definition q_sum (l : list Q) : Q := fold_left Qplus l 0%Q.

(** [sum(l) / len(l)] *)
Definition q_mean (l : list Q) : Q :=
  (q_sum l / inject_Z (Z.of_nat (length l)))%Q.

(** Rounding to the nearest integer, ties to the even one. *)
Definition round_half_even (q : Q) : Z :=
  let f := Qfloor q in
  match Qcompare (q - inject_Z f)%Q (1 # 2)%Q with
  | Lt => f
  | Gt => (f + 1)%Z
  | Eq => if Z.even f then f else (f + 1)%Z
  end.

(** [round(q, 2)] *)
Definition py_round2 (q : Q) : Q :=
  (inject_Z (round_half_even (q * 100)) / 100)%Q.

(** ** shared/data_storage.py *)

(** A record returned by the search index; an absent key is [None]. *)
Record document : Type := Document {
  doc_id : option string;
  doc_meeting_id : option string;
  doc_speaker : option string;
  doc_department : option string;
  doc_region : option string;
  doc_topics : option (list string);
  doc_sentiment_score : option Q;
  doc_content : option string;
  doc_start_timestamp : option string;
  doc_end_timestamp : option string
}.

(** The filter dictionary; a key that is not set is [None]. *)
Record filters : Type := Filters {
  f_from_date : option string;
  f_to_date : option string;
  f_speaker : option string;
  f_department : option string;
  f_region : option string;
  f_topics : option (list string);
  f_sentiment_min : option pyfloat;
  f_sentiment_max : option pyfloat
}.

Definition no_filters : filters :=
  Filters None None None None None None None None.

(** [key in d] for a key of a record-like dictionary. *)
Definition has_key {A} (o : option A) : bool :=
  match o with Some _ => true | None => false end.

(** Truth value of the dictionary: it has at least one key. *)
Definition filters_nonempty (f : filters) : bool :=
  has_key (f_from_date f) || has_key (f_to_date f)
  || has_key (f_speaker f) || has_key (f_department f)
  || has_key (f_region f) || has_key (f_topics f)
  || has_key (f_sentiment_min f) || has_key (f_sentiment_max f).

(** One conjunct of the filter expression sent to the index. *)
Inductive clause : Type :=
| MeetingDateGe (d : string)
| MeetingDateLe (d : string)
| SpeakerEq (s : string)
| DepartmentEq (s : string)
| RegionEq (s : string)
| TopicsAnyOf (ts : list string)
| SentimentGe (x : pyfloat)
| SentimentLe (x : pyfloat).

Record search_params : Type := SearchParams {
  sp_top : Z;
  sp_skip : Z;
  sp_search_text : option string;
  sp_filter : option (list clause)
}.

(** The storage collaborators behind [DataStorage]. *)
Record Backend : Type := {
  storage_init : result unit;
  search_client_search : search_params → result (list document);
  search_client_upload : list (gmap string value) → result unit
}.

Record trend : Type := Trend {
  tr_name : string;
  tr_description : string;
  tr_meetings_count : nat;
  tr_avg_sentiment : Q;
  tr_momentum : string;
  tr_novelty_score : Q;
  tr_support : list string
}.

Record trends_data : Type := TrendsData {
  window_start : option string;
  window_end : option string;
  trends : list trend
}.

Definition opt_clause {A} (mk : A → clause) (o : option A) : list clause :=
  match o with Some a => [mk a] | None => [] end.

(** The conjuncts of the filter, in the order [search_utterances] adds
    them. *)
Definition filter_parts (f : filters) : list clause :=
  opt_clause MeetingDateGe (f_from_date f)
  ++ opt_clause MeetingDateLe (f_to_date f)
  ++ opt_clause SpeakerEq (f_speaker f)
  ++ opt_clause DepartmentEq (f_department f)
  ++ opt_clause RegionEq (f_region f)
  ++ opt_clause TopicsAnyOf (f_topics f)
  ++ opt_clause SentimentGe (f_sentiment_min f)
  ++ opt_clause SentimentLe (f_sentiment_max f).

Definition build_search_params (search_text : option string)
    (flt : option filters) (top skip : Z) : search_params :=
  {| sp_top := top;
     sp_skip := skip;
     sp_search_text :=
       match search_text with
       | Some s => if String.eqb s "" then None else Some s
       | None => None
       end;
     sp_filter :=
       match flt with
       | Some f =>
           if filters_nonempty f
           then match filter_parts f with
                | [] => None
                | parts => Some parts
                end
           else None
       | None => None
       end |}.

(** [topic.replace("_", " ")] *)
Definition topic_words (topic : string) : string :=
  PyStr.replace_char "_" " " topic.

(** The first loop of [get_trends], for one topic of one utterance. *)
Definition count_topic (sentiment : Q)
    (st : OD.odict nat * OD.odict (list Q)) (topic : string)
  : OD.odict nat * OD.odict (list Q) :=
  let '(topic_counts, sentiment_by_topic) := st in
  let '(topic_counts, sentiment_by_topic) :=
    if negb (OD.mem topic topic_counts)
    then (OD.set topic 0%nat topic_counts, OD.set topic [] sentiment_by_topic)
    else (topic_counts, sentiment_by_topic) in
  (OD.alter S topic topic_counts,
   OD.alter (λ scores, scores ++ [sentiment]) topic sentiment_by_topic).

Definition count_utterance (st : OD.odict nat * OD.odict (list Q))
    (utterance : document) : OD.odict nat * OD.odict (list Q) :=
  let topics := default [] (doc_topics utterance) in
  let sentiment := default 0%Q (doc_sentiment_score utterance) in
  fold_left (count_topic sentiment) topics st.

Definition momentum_of (avg_sentiment : Q) : string :=
  if Qltb (1 # 10) avg_sentiment then "up"
  else if Qltb avg_sentiment (- (1 # 10)) then "down"
  else "flat".

(** [min(count / 10.0, 1.0)] *)
Definition novelty_of (count : nat) : Q :=
  let ratio := (inject_Z (Z.of_nat count) / 10)%Q in
  if Qltb 1 ratio then 1%Q else ratio.

(** The second loop of [get_trends]. *)
Definition make_trend (sentiment_by_topic : OD.odict (list Q))
    (entry : string * nat) : trend :=
  let '(topic, count) := entry in
  let avg_sentiment := q_mean (default [] (OD.get topic sentiment_by_topic)) in
  {| tr_name := PyStr.title (topic_words topic);
     tr_description := "Discussion about " +:+ topic_words topic;
     tr_meetings_count := count;
     tr_avg_sentiment := py_round2 avg_sentiment;
     tr_momentum := momentum_of avg_sentiment;
     tr_novelty_score := novelty_of count;
     tr_support := [] |}.

(** The aggregation of [get_trends] over the retrieved utterances. *)
Definition trends_of (utterances : list document) : list trend :=
  let '(topic_counts, sentiment_by_topic) :=
    fold_left count_utterance utterances ([], []) in
  take 10 (sort_desc tr_meetings_count
             (map (make_trend sentiment_by_topic) topic_counts)).

Section DataStorage.

Variable backend : Backend.

Definition search_utterances (search_text : option string)
    (flt : option filters) (top skip : Z) : list document :=
  match search_client_search backend
          (build_search_params search_text flt top skip) with
  | Ok results => results
  | Raise _ => []
  end.


(** No step of the body raises on records of this type, so the
    [except] branch of the source is not reached. *)
Definition get_trends (flt : option filters) : trends_data :=
  let utterances := search_utterances None flt 1000 0 in
  let truthy := match flt with Some f => filters_nonempty f | None => false end in
  {| window_start :=
       if truthy then flt ≫= f_from_date else Some "2025-01-01";
     window_end :=
       if truthy then flt ≫= f_to_date else Some "2025-12-31";
     trends := trends_of utterances |}.

End DataStorage.

(** ** HTTP surface *)

(** The JSON body of a chat request, as [req.get_json()] returns it. *)
Inductive json_payload : Type :=
| PayloadObject (question context : option string)
| PayloadOther (attribute_error : string).

Record HttpRequest : Type := {
  req_params : gmap string string;
  req_headers : gmap string string;
  (** [None] when [req.get_json()] raises *)
  req_json : option json_payload
}.

Record HttpResponse : Type := HttpResponseOf {
  status_code : nat;
  body : json
}.

(** [req.headers.get(name, dflt)] *)
Definition header (req : HttpRequest) (name dflt : string) : string :=
  default dflt (req_headers req !! name).

Definition is_localhost (req : HttpRequest) : bool :=
  let client_ip := header req "X-Forwarded-For" (header req "X-Real-IP" "") in
  let host := header req "Host" "" in
  PyStr.contains "localhost" host
  || PyStr.contains "127.0.0.1" host
  || (String.eqb client_ip "127.0.0.1" || String.eqb client_ip "::1")
  || String.prefix "localhost" (header req "X-Forwarded-Host" "").

(** Truth value of [req.params.get('code') or req.headers.get('x-functions-key')] *)
Definition has_function_key (req : HttpRequest) : bool :=
  match req_params req !! "code" with
  | Some (String _ _) => true
  | _ =>
      match req_headers req !! "x-functions-key" with
      | Some (String _ _) => true
      | _ => false
      end
  end.

Definition key_required : HttpResponse :=
  {| status_code := 401;
     body := JObj [("error", JStr "Function key required for non-localhost requests")] |}.

(** The [except Exception as e] branch of the insight endpoints. *)
Definition internal_error (e : string) : HttpResponse :=
  {| status_code := 500;
     body := JObj [("error", JStr "Internal server error"); ("details", JStr e)] |}.

(** The [except Exception as e] branch of the chat endpoint. *)
Definition chat_internal_error (e : string) : HttpResponse :=
  {| status_code := 500;
     body := JObj [("error", JStr "Internal server error");
                   ("details", JStr e);
                   ("answer", JStr "I'm sorry, I encountered an error processing your request. Please try again.")] |}.

(** [try: ... except Exception as e: handler] around a request body. *)
Definition respond (on_error : string → HttpResponse)
    (attempt : result HttpResponse) : HttpResponse :=
  match attempt with
  | Ok response => response
  | Raise e => on_error e
  end.

Definition filters_to_json (f : filters) : json :=
  JObj (
    match f_from_date f with Some d => [("from_date", JStr d)] | None => [] end
    ++ match f_to_date f with Some d => [("to_date", JStr d)] | None => [] end
    ++ match f_topics f with Some ts => [("topics", JArr (map JStr ts))] | None => [] end
    ++ match f_region f with Some r => [("region", JStr r)] | None => [] end
    ++ match f_department f with Some d => [("department", JStr d)] | None => [] end
    ++ match f_sentiment_min f with Some x => [("sentiment_min", JNum x)] | None => [] end
    ++ match f_sentiment_max f with Some x => [("sentiment_max", JNum x)] | None => [] end).

(** ** insights_speakers: the aggregation *)

Record quote : Type := Quote {
  q_quote : string;
  q_meeting_id : string;
  q_ts : string
}.

Record speaker_entry : Type := SpeakerEntry {
  se_speaker_id : string;
  se_display_name : string;
  se_department : string;
  se_region : string;
  se_country : string;
  se_mentions : nat;
  se_sentiment_scores : list Q;
  se_quotes : list quote
}.

Record speaker_result : Type := SpeakerResult {
  sr_speaker_id : string;
  sr_display_name : string;
  sr_department : string;
  sr_region : string;
  sr_country : string;
  sr_mentions : nat;
  sr_avg_sentiment : Q;
  sr_exemplar_quotes : list quote
}.

Definition speaker_of (utterance : document) : string :=
  default "Unknown" (doc_speaker utterance).

Definition content_of (utterance : document) : string :=
  default "" (doc_content utterance).

(** [content[:200] + '...' if len(content) > 200 else content] *)
Definition quote_text (content : string) : string :=
  if (200 <? String.length content)%nat
  then PyStr.take 200 content +:+ "..."
  else content.

Definition exemplar_quote (utterance : document) : quote :=
  {| q_quote := quote_text (content_of utterance);
     q_meeting_id := default "" (doc_meeting_id utterance);
     q_ts := default "00:00" (doc_start_timestamp utterance) |}.

Definition speaker_id_of (speaker : string) : string :=
  "spk-" +:+ PyStr.replace_char " " "" (PyStr.lower speaker).

Definition new_speaker (speaker : string) (utterance : document) : speaker_entry :=
  {| se_speaker_id := speaker_id_of speaker;
     se_display_name := speaker;
     se_department := default "Unknown" (doc_department utterance);
     se_region := default "Unknown" (doc_region utterance);
     se_country := "US";
     se_mentions := 0;
     se_sentiment_scores := [];
     se_quotes := [] |}.

(** The updates of one pass of the loop on the entry of the speaker. *)
Definition record_utterance (utterance : document) (e : speaker_entry)
  : speaker_entry :=
  {| se_speaker_id := se_speaker_id e;
     se_display_name := se_display_name e;
     se_department := se_department e;
     se_region := se_region e;
     se_country := se_country e;
     se_mentions := se_mentions e + 1;
     se_sentiment_scores :=
       se_sentiment_scores e ++ [default 0%Q (doc_sentiment_score utterance)];
     se_quotes :=
       if (length (se_quotes e) <? 3)%nat
       then se_quotes e ++ [exemplar_quote utterance]
       else se_quotes e |}.

Definition speaker_step (speaker_data : OD.odict speaker_entry)
    (utterance : document) : OD.odict speaker_entry :=
  let speaker := speaker_of utterance in
  let speaker_data :=
    if negb (OD.mem speaker speaker_data)
    then OD.set speaker (new_speaker speaker utterance) speaker_data
    else speaker_data in
  OD.alter (record_utterance utterance) speaker speaker_data.

Definition speaker_summary (item : string * speaker_entry) : speaker_result :=
  let data := snd item in
  let avg_sentiment :=
    match se_sentiment_scores data with
    | [] => 0%Q
    | scores => q_mean scores
    end in
  {| sr_speaker_id := se_speaker_id data;
     sr_display_name := se_display_name data;
     sr_department := se_department data;
     sr_region := se_region data;
     sr_country := se_country data;
     sr_mentions := se_mentions data;
     sr_avg_sentiment := py_round2 avg_sentiment;
     sr_exemplar_quotes := se_quotes data |}.

Definition analyze_speakers (utterances : list document) : list speaker_result :=
  let speaker_data := fold_left speaker_step utterances [] in
  sort_desc sr_mentions (map speaker_summary speaker_data).

(** ** Response bodies *)

Definition jq (q : Q) : json := JNum (PyFin q).
Definition jnat (n : nat) : json := JInt (Z.of_nat n).

Definition quote_to_json (q : quote) : json :=
  JObj [("quote", JStr (q_quote q));
        ("meeting_id", JStr (q_meeting_id q));
        ("ts", JStr (q_ts q))].

Definition speaker_to_json (r : speaker_result) : json :=
  JObj [("speaker_id", JStr (sr_speaker_id r));
        ("display_name", JStr (sr_display_name r));
        ("department", JStr (sr_department r));
        ("region", JStr (sr_region r));
        ("country", JStr (sr_country r));
        ("mentions", jnat (sr_mentions r));
        ("avg_sentiment", jq (sr_avg_sentiment r));
        ("exemplar_quotes", JArr (map quote_to_json (sr_exemplar_quotes r)))].

Definition trend_to_json (t : trend) : json :=
  JObj [("name", JStr (tr_name t));
        ("description", JStr (tr_description t));
        ("meetings_count", jnat (tr_meetings_count t));
        ("avg_sentiment", jq (tr_avg_sentiment t));
        ("momentum", JStr (tr_momentum t));
        ("novelty_score", jq (tr_novelty_score t));
        ("support", JArr (map JStr (tr_support t)))].

Definition trends_data_to_json (d : trends_data) : json :=
  JObj [("window_start", jopt (window_start d));
        ("window_end", jopt (window_end d));
        ("trends", JArr (map trend_to_json (trends d)))].

(** One element of ['items'] in the utterances endpoint. *)
Definition utterance_item (utterance : document) : json :=
  let meeting_id := default "" (doc_meeting_id utterance) in
  JObj [("utterance_id", JStr (default "" (doc_id utterance)));
        ("meeting_id", JStr meeting_id);
        ("speaker", JStr (default "" (doc_speaker utterance)));
        ("department", JStr (default "" (doc_department utterance)));
        ("region", JStr (default "" (doc_region utterance)));
        ("country", JStr "US");
        ("start_ts", JStr (default "" (doc_start_timestamp utterance)));
        ("end_ts", JStr (default "" (doc_end_timestamp utterance)));
        ("sentiment_score", jq (default 0%Q (doc_sentiment_score utterance)));
        ("content", JStr (default "" (doc_content utterance)));
        ("topics", JArr (map JStr (default [] (doc_topics utterance))));
        ("link_to_clip", JStr ("https://teams.microsoft.com/meeting/" +:+ meeting_id))].

(** A retrieved record as it is, for the chat payload. *)
Definition document_to_json (d : document) : json :=
  let str (k : string) (o : option string) : list (string * json) :=
    match o with Some s => [(k, JStr s)] | None => [] end in
  JObj (str "id" (doc_id d)
        ++ str "meeting_id" (doc_meeting_id d)
        ++ str "speaker" (doc_speaker d)
        ++ str "department" (doc_department d)
        ++ str "region" (doc_region d)
        ++ match doc_topics d with
           | Some ts => [("topics", JArr (map JStr ts))]
           | None => []
           end
        ++ match doc_sentiment_score d with
           | Some q => [("sentiment_score", jq q)]
           | None => []
           end
        ++ str "content" (doc_content d)
        ++ str "start_timestamp" (doc_start_timestamp d)
        ++ str "end_timestamp" (doc_end_timestamp d)).

(** ** The insight endpoints *)

Section InsightEndpoints.

Variable py_float : string → option pyfloat.
Variable py_int : string → option Z.
Variable backend : Backend.

(** The query-string filters; an unparsable sentiment bound is left out. *)
Definition filters_of_params (params : gmap string string) : filters :=
  {| f_from_date := params !! "from";
     f_to_date := params !! "to";
     f_speaker := None;
     f_department := params !! "department";
     f_region := params !! "region";
     f_topics := PyStr.split "," <$> params !! "topicsCsv";
     f_sentiment_min := params !! "sentiment_min" ≫= py_float;
     f_sentiment_max := params !! "sentiment_max" ≫= py_float |}.

(** [int(params.get(name, dflt))] *)
Definition int_param (params : gmap string string) (name : string) (dflt : Z)
  : option Z :=
  match params !! name with
  | Some s => py_int s
  | None => Some dflt
  end.

(** The [try] around the two [int()] calls. *)
Definition pagination (params : gmap string string) : Z * Z :=
  match int_param params "top" 50, int_param params "skip" 0 with
  | Some top, Some skip => (top, skip)
  | _, _ => (50, 0)%Z
  end.

(** [top] after [top = min(top, 100)], and [skip]. *)
Definition utterances_page (req : HttpRequest) : Z * Z :=
  let '(top, skip) := pagination (req_params req) in
  (Z.min top 100, skip).

Definition insights_utterances_main (req : HttpRequest) : HttpResponse :=
  respond internal_error (
    let params := req_params req in
    let search_text := default "" (params !! "search") in
    let flt := filters_of_params params in
    let '(top, skip) := utterances_page req in
    storage_init backend;;
    let utterances :=
      search_utterances backend
        (if String.eqb search_text "" then None else Some search_text)
        (Some flt) top skip in
    let items := map utterance_item utterances in
    Ok {| status_code := 200;
          body := JObj [("items", JArr items);
                        ("total_count", jnat (length items));
                        ("search_text", JStr search_text);
                        ("filters_applied", filters_to_json flt);
                        ("pagination",
                         JObj [("top", JInt top);
                               ("skip", JInt skip);
                               ("has_more", JBool (Z.of_nat (length items) =? top)%Z)])] |}).

Definition insights_trends_main (req : HttpRequest) : HttpResponse :=
  respond internal_error (
    if negb (is_localhost req) && negb (has_function_key req)
    then Ok key_required
    else
      let flt := filters_of_params (req_params req) in
      storage_init backend;;
      let trends_data := get_trends backend (Some flt) in
      Ok {| status_code := 200; body := trends_data_to_json trends_data |}).

Definition insights_speakers_main (req : HttpRequest) : HttpResponse :=
  respond internal_error (
    if negb (is_localhost req) && negb (has_function_key req)
    then Ok key_required
    else
      let flt := filters_of_params (req_params req) in
      storage_init backend;;
      let utterances := search_utterances backend None (Some flt) 1000 0 in
      let results := analyze_speakers utterances in
      Ok {| status_code := 200;
            body := JObj [("results", JArr (map speaker_to_json results))] |}).

End InsightEndpoints.

(** ** chat: natural-language queries *)

(** Truth value of a JSON value read into Python. *)
Definition truthy (j : json) : bool :=
  match j with
  | JNull => false
  | JBool b => b
  | JInt z => negb (z =? 0)%Z
  | JNum (PyFin q) => negb (Qeq_bool q 0)
  | JNum _ => true
  | JStr s => negb (String.eqb s "")
  | JArr items => match items with [] => false | _ => true end
  | JObj members => match members with [] => false | _ => true end
  end.

(** [d.get(k)] on a dictionary. *)
Definition json_get (k : string) (d : json) : option json :=
  match d with
  | JObj members => OD.get k members
  | _ => None
  end.

(** [v == s] for a string literal [s]. *)
Definition is_str (v : json) (s : string) : bool :=
  match v with
  | JStr t => String.eqb t s
  | _ => false
  end.

Record chat_result : Type := ChatResult {
  cr_answer : string;
  cr_data : json;
  cr_sources : list string;
  cr_confidence : Q;
  cr_intent : option json;
  cr_error : option string
}.

Definition chat_result_to_json (r : chat_result) : json :=
  JObj ([("answer", JStr (cr_answer r));
         ("data", cr_data r);
         ("sources", JArr (map JStr (cr_sources r)));
         ("confidence", jq (cr_confidence r))]
        ++ match cr_intent r with
           | Some i => [("intent", i); ("parameters_used", JObj [])]
           | None => []
           end
        ++ match cr_error r with
           | Some e => [("error", JStr e)]
           | None => []
           end).

Definition default_analysis : json :=
  JObj [("intent", JStr "utterances");
        ("parameters", JObj []);
        ("entities", JArr [])].

(** The speaker tally of the [speakers] intent. *)
Definition tally_speaker (speaker_counts : OD.odict (nat * list Q))
    (utterance : document) : OD.odict (nat * list Q) :=
  let speaker := speaker_of utterance in
  let speaker_counts :=
    if negb (OD.mem speaker speaker_counts)
    then OD.set speaker (0%nat, []) speaker_counts
    else speaker_counts in
  OD.alter (λ e, (fst e + 1, snd e ++ [default 0%Q (doc_sentiment_score utterance)]))
           speaker speaker_counts.

Definition tally_to_json (speaker_counts : OD.odict (nat * list Q)) : json :=
  JObj (map (λ item, (fst item,
                      JObj [("count", jnat (fst (snd item)));
                            ("sentiment", JArr (map jq (snd (snd item))))]))
            speaker_counts).

Definition count_text (n : nat) : string := pretty n.

Section Chat.

(** [json.loads], [None] when it raises. *)
Variable json_loads : string → option json.
(** [str(v)] of a value read from JSON. *)
Variable py_str : json → string.
(** Message of the [TypeError] of [v[key]] on a value that is not a
    dictionary, and of the [AttributeError] of [v.items()]. *)
Variable subscript_error : json → string.
Variable items_error : json → string.
(** [config.azure_openai_deployment_name] *)
Variable deployment_name : string.
(** Construction of the OpenAI clients of the processor. *)
Variable client_init : result unit.

Variable client : Collaborator.
Variable backend : Backend.

Definition extract_intent_and_parameters (question : string) : json :=
  match chat client 0 (IntentPrompt question) with
  | ChatRaised _ => default_analysis
  | ChatContent text =>
      match json_loads text with
      | Some r => r
      | None => default_analysis
      end
  end.

(** [obj[key]] *)
Definition subscript (obj : json) (key : string) : result json :=
  match obj with
  | JObj members =>
      match OD.get key members with
      | Some v => Ok v
      | None => Raise ("'" +:+ key +:+ "'")
      end
  | _ => Raise (subscript_error obj)
  end.

(** One pass of the loop of [validate_parameters]. *)
Definition validate_parameter (validated : OD.odict json)
    (item : string * json) : OD.odict json :=
  let '(key, value) := item in
  match value with
  | JNull => validated
  | JStr s =>
      if String.eqb s "null" || String.eqb s "" then validated
      else if String.eqb (PyStr.strip s) "" then validated
      else OD.set key (JStr (PyStr.strip s)) validated
  | JArr items =>
      if String.eqb key "topics" && truthy value
      then OD.set key
             (JArr (map (λ i, JStr (py_str i))
                        (List.filter (λ i, truthy i
                                           && negb (String.eqb (PyStr.strip (py_str i)) ""))
                                     items)))
             validated
      else validated
  | _ => OD.set key (JStr (py_str value)) validated
  end.

Definition validate_parameters (parameters : json) : result (OD.odict json) :=
  match parameters with
  | JObj members => Ok (fold_left validate_parameter members [])
  | _ => Raise (items_error parameters)
  end.

Definition generate_answer (question : string) (intent data : json)
    (context : string) : string :=
  match chat client 1 (AnswerPrompt question intent data context) with
  | ChatContent text => PyStr.strip text
  | ChatRaised e =>
      let error_msg := PyStr.lower e in
      if PyStr.contains "authentication" error_msg
         || PyStr.contains "unauthorized" error_msg
      then "I'm experiencing authentication issues with the AI service. Please contact support."
      else if PyStr.contains "not found" error_msg || PyStr.contains "404" error_msg
      then "The AI model '" +:+ deployment_name
           +:+ "' is not available. Please check the configuration."
      else if PyStr.contains "quota" error_msg || PyStr.contains "rate limit" error_msg
      then "The AI service is currently at capacity. Please try again in a moment."
      else "I encountered an error: " +:+ e
           +:+ ". Please try asking your question in a different way."
  end.

(** The data and sources gathered for an intent. *)
Definition gather (intent : json) : json * list string :=
  if is_str intent "trends" then
    let trends_data := get_trends backend (Some no_filters) in
    (trends_data_to_json trends_data,
     ["Trend analysis for " +:+ count_text (length (trends trends_data)) +:+ " topics"])
  else if is_str intent "speakers" then
    let utterances := search_utterances backend None (Some no_filters) 1000 0 in
    let speaker_counts := fold_left tally_speaker utterances [] in
    (JObj [("speakers", tally_to_json speaker_counts)],
     ["Analysis of " +:+ count_text (length utterances) +:+ " utterances from "
      +:+ count_text (length speaker_counts) +:+ " speakers"])
  else if is_str intent "utterances" then
    let utterances := search_utterances backend None (Some no_filters) 50 0 in
    (JObj [("utterances", JArr (map document_to_json utterances))],
     ["Found " +:+ count_text (length utterances) +:+ " relevant utterances"])
  else if is_str intent "sentiment" then
    let utterances := search_utterances backend None (Some no_filters) 1000 0 in
    let sentiments := map (λ u, default 0%Q (doc_sentiment_score u)) utterances in
    let avg_sentiment :=
      match sentiments with
      | [] => JInt 0
      | _ => jq (q_mean sentiments)
      end in
    (JObj [("average_sentiment", avg_sentiment);
           ("total_utterances", jnat (length utterances))],
     ["Sentiment analysis of " +:+ count_text (length utterances) +:+ " utterances"])
  else
    let utterances := search_utterances backend None (Some no_filters) 50 0 in
    (JObj [("utterances", JArr (map document_to_json utterances))],
     ["General search returned " +:+ count_text (length utterances) +:+ " results"]).

(** [# Check if we have data] *)
Definition has_data (intent data : json) : bool :=
  if is_str intent "trends"
     && match json_get "trends" data with Some v => truthy v | None => false end
  then true
  else if (is_str intent "speakers" || is_str intent "sentiment") && truthy data
  then true
  else if is_str intent "utterances"
          && match json_get "utterances" data with Some v => truthy v | None => false end
  then true
  else false.

(** The [except] branch of [process_query]. *)
Definition query_failure (e : string) : chat_result :=
  if PyStr.contains "key must be a string" (PyStr.lower e)
  then {| cr_answer := "I'm currently experiencing a technical issue with parameter processing. Please try asking your question in a different way.";
          cr_data := JObj [];
          cr_sources := [];
          cr_confidence := 0;
          cr_intent := None;
          cr_error := Some "Parameter validation error - please rephrase your question" |}
  else {| cr_answer := "I apologize, but I encountered an error processing your question. Please try rephrasing your query.";
          cr_data := JObj [];
          cr_sources := [];
          cr_confidence := 0;
          cr_intent := None;
          cr_error := Some e |}.

Definition process_query (question context : string) : chat_result :=
  let attempt : result chat_result :=
    let analysis := extract_intent_and_parameters question in
    intent ← subscript analysis "intent";
    raw_parameters ← subscript analysis "parameters";
    parameters ← validate_parameters raw_parameters;
    let '(data, sources) := gather intent in
    let answer := generate_answer question intent data context in
    Ok {| cr_answer := answer;
          cr_data := data;
          cr_sources := sources;
          cr_confidence := if has_data intent data then 85 # 100 else 3 # 10;
          cr_intent := Some intent;
          cr_error := None |} in
  match attempt with
  | Ok r => r
  | Raise e => query_failure e
  end.

Definition bad_request (message : string) : HttpResponse :=
  {| status_code := 400; body := JObj [("error", JStr message)] |}.

Definition chat_main (req : HttpRequest) : HttpResponse :=
  respond chat_internal_error (
    if negb (is_localhost req) && negb (has_function_key req)
    then Ok key_required
    else
      match req_json req with
      | None => Ok (bad_request "Invalid JSON in request body")
      | Some (PayloadOther e) => Raise e
      | Some (PayloadObject question context) =>
          let question := default "" question in
          let context := default "" context in
          if String.eqb question "" then Ok (bad_request "Question is required")
          else
            storage_init backend;;
            client_init;;
            Ok {| status_code := 200;
                  body := chat_result_to_json (process_query question context) |}
      end).

End Chat.

(** ** The rules as the specification words them *)

Module Spec.

(** A keyword occurs in a text, letter case ignored. *)
Definition occurs_ignoring_case (keyword text : string) : bool :=
  PyStr.contains (PyStr.lower keyword) (PyStr.lower text).

(** The pure keyword rule: the topics of the table one of whose keywords
    occurs in the combined text, or the sentinel when there is none. *)
Definition keyword_rule (texts : list string) : list string :=
  let combined := PyStr.join " " texts in
  match map fst
          (List.filter (λ entry, existsb (λ keyword, occurs_ignoring_case keyword combined)
                                         (snd entry))
                       topic_keywords) with
  | [] => ["general_discussion"]
  | topics => topics
  end.

Fixpoint count_char (c : ascii) (s : string) : nat :=
  match s with
  | EmptyString => 0
  | String d s' => (if Ascii.eqb d c then 1 else 0) + count_char c s'
  end.

(** Speaker extraction: a single [:] and at most 50 characters before
    it. *)
Definition speaker_rule (text : string) : string * string :=
  match PyStr.split_first ":" text with
  | Some (before, after) =>
      if (count_char ":" text =? 1)%nat
         && (String.length (PyStr.strip before) <=? 50)%nat
      then (PyStr.strip before, PyStr.strip after)
      else ("Unknown Speaker", text)
  | None => ("Unknown Speaker", text)
  end.

(** The topics and the sentiment score an utterance carries. *)
Definition topics_of (u : document) : list string := default [] (doc_topics u).
Definition sentiment_of (u : document) : Q := default 0%Q (doc_sentiment_score u).


(** The retrieved utterances of a speaker. *)
Definition said_by (speaker : string) (utterances : list document)
  : list document :=
  List.filter (λ u, String.eqb (speaker_of u) speaker) utterances.

(** Every topic occurrence of the retrieved utterances, in order, with
    the sentiment of its utterance. *)
Definition occurrences (utterances : list document) : list (string * Q) :=
  flat_map (λ u, map (λ t, (t, sentiment_of u)) (topics_of u)) utterances.

End Spec.

(** ** Sample builtins and collaborators for concrete runs *)

Module Sample.

Fixpoint digits_value (acc : nat) (s : string) : option nat :=
  match s with
  | EmptyString => Some acc
  | String c s' =>
      match Ascii.is_nat c with
      | Some d => digits_value (10 * acc + d) s'
      | None => None
      end
  end.

(** Unsigned decimal numerals. *)
Definition numeral (s : string) : option nat :=
  match s with
  | EmptyString => None
  | _ => digits_value 0 s
  end.

(** [int()] on optionally signed decimal numerals. *)
Definition py_int (s : string) : option Z :=
  match PyStr.strip s with
  | String "-" s' => (λ n, (- Z.of_nat n)%Z) <$> numeral s'
  | String "+" s' => Z.of_nat <$> numeral s'
  | s' => Z.of_nat <$> numeral s'
  end.

(** Unsigned [digits] or [digits.digits]. *)
Definition decimal (s : string) : option Q :=
  match PyStr.split_first "." s with
  | None => (λ n, inject_Z (Z.of_nat n)) <$> numeral s
  | Some (whole, frac) =>
      w ← numeral whole;
      f ← numeral frac;
      Some (inject_Z (Z.of_nat w)
            + inject_Z (Z.of_nat f) / inject_Z (10 ^ Z.of_nat (String.length frac)))%Q
  end.

(** [float()] on optionally signed decimals, [inf] and [nan]. *)
Definition py_float (s : string) : option pyfloat :=
  let unsigned (negative : bool) (t : string) : option pyfloat :=
    let l := PyStr.lower t in
    if String.eqb l "inf" || String.eqb l "infinity" then Some (PyInf negative)
    else if String.eqb l "nan" then Some PyNaN
    else (λ q, PyFin (if negative then - q else q)%Q) <$> decimal t in
  match PyStr.strip s with
  | String "-" s' => unsigned true s'
  | String "+" s' => unsigned false s'
  | s' => unsigned false s'
  end.

(** A collaborator that gives the same answers to every call. *)
Definition constant_client (reply : completion) (vector : embedding_response)
  : Collaborator :=
  {| chat := λ _ _, reply; embed := λ _ _, vector |}.

Definition failing_client : Collaborator :=
  constant_client (ChatRaised "service unavailable")
                  (EmbedRaised "service unavailable").

(** A storage whose index holds [docs] and accepts every write. *)
Definition storage_with (docs : list document) : Backend :=
  {| storage_init := Ok ();
     search_client_search := λ _, Ok docs;
     search_client_upload := λ _, Ok () |}.

(** A storage whose every read and write raises. *)
Definition storage_down : Backend :=
  {| storage_init := Ok ();
     search_client_search := λ _, Raise "index unreachable";
     search_client_upload := λ _, Raise "index unreachable" |}.

(** A storage that cannot be constructed. *)
Definition storage_misconfigured (e : string) : Backend :=
  {| storage_init := Raise e;
     search_client_search := λ _, Ok [];
     search_client_upload := λ _, Ok () |}.

Definition request (params headers : list (string * string)) : HttpRequest :=
  {| req_params := list_to_map params;
     req_headers := list_to_map headers;
     req_json := None |}.

Definition doc (speaker content : string) (topics : list string) (sentiment : Q)
  : document :=
  {| doc_id := Some "u";
     doc_meeting_id := Some "meeting-1";
     doc_speaker := Some speaker;
     doc_department := Some "Unknown";
     doc_region := Some "Unknown";
     doc_topics := Some topics;
     doc_sentiment_score := Some sentiment;
     doc_content := Some content;
     doc_start_timestamp := Some "00:00:01.000";
     doc_end_timestamp := Some "00:00:06.000" |}.

(** [json.loads] of an intent analysis naming [intent], with no
    parameters. *)
Definition analysis_with (intent : string) : string → option json :=
  λ _, Some (JObj [("intent", JStr intent); ("parameters", JObj [])]).

Definition answering_client : Collaborator :=
  constant_client (ChatContent "There is not enough data to say.") (EmbedData []).

(** A chat query routed to [intent] over a corpus holding [docs]. *)
Definition chat_run (intent : string) (docs : list document) : chat_result :=
  process_query (analysis_with intent) (λ _, "") (λ _, "not subscriptable")
    (λ _, "no attribute 'items'") "gpt" answering_client (storage_with docs)
    "Who spoke most about packaging?" "".

(** A text of [n] characters. *)
Fixpoint filler (n : nat) : string :=
  match n with
  | O => EmptyString
  | S n' => String "x" (filler n')
  end.

(** A speaker label of exactly 50 characters. *)
Definition long_title : string :=
  "Vice President Of Global Supply Chain Operations X".

End Sample.

(** ** shared/transcript_parser.py: documents and normalisation *)

(** [s.count(c)] for a one-character pattern. *)
Fixpoint str_count (c : ascii) (s : string) : nat :=
  match s with
  | EmptyString => 0
  | String d s' => (if Ascii.eqb d c then 1 else 0) + str_count c s'
  end.

(** No character of the text is whitespace. *)
Fixpoint no_space (s : string) : bool :=
  match s with
  | EmptyString => true
  | String c s' => negb (PyStr.is_space c) && no_space s'
  end.

(** The dictionary a parser builds for one utterance: the keys
    [utterance_id], [speaker], [content], [start_time], [end_time] and
    [duration] are always present; the last three hold [None] for a Word
    document. *)
Record parsed_utterance : Type := ParsedUtterance {
  pu_utterance_id : string;
  pu_speaker : string;
  pu_content : string;
  pu_start_time : option string;
  pu_end_time : option string;
  pu_duration : option Q
}.

(** The dictionary of [parse_vtt] for an utterance, with its identifier. *)
Definition vtt_dict (utterance_id : string) (u : raw_utterance) : parsed_utterance :=
  {| pu_utterance_id := utterance_id;
     pu_speaker := ru_speaker u;
     pu_content := ru_content u;
     pu_start_time := Some (ru_start_time u);
     pu_end_time := Some (ru_end_time u);
     pu_duration := Some (ru_duration u) |}.

(** The caption lines of a cue in a file: the time range, the text, and a
    blank line. *)
Definition cue_lines (c : caption) : list string :=
  [cap_start c +:+ " --> " +:+ cap_end c; cap_text c; ""].

(** A caption file: the header and the cues. *)
Definition render_vtt (cues : list caption) : string :=
  PyStr.join (String "010" "") ("WEBVTT" :: "" :: flat_map cue_lines cues).

(** A cue as a caption file carries it on lines of its own: times without
    whitespace, the start time with its colons, and a text on one line that
    is not blank. *)
Definition well_formed_cue (c : caption) : Prop :=
  cap_start c ≠ "" ∧ no_space (cap_start c) = true
  ∧ PyStr.contains ":" (cap_start c) = true
  ∧ cap_end c ≠ "" ∧ no_space (cap_end c) = true
  ∧ PyStr.strip (cap_text c) ≠ ""
  ∧ str_count "010" (cap_text c) = 0%nat.

(** [re.match(r'^([^:]+):\s*(.+)$', text)] on a text without trailing
    whitespace, as [parse_docx] applies it: groups 1 and 2.  The label is
    what precedes the first colon and must not be empty; the body is what
    follows it without its leading whitespace, and must be non-empty and on
    one line. *)
Definition speaker_line (text : string) : option (string * string) :=
  match PyStr.split_first ":" text with
  | Some (label, rest) =>
      let body := PyStr.lstrip rest in
      if String.eqb label "" || String.eqb body ""
         || negb (str_count "010" body =? 0)%nat
      then None
      else Some (label, body)
  | None => None
  end.

Record docx_state : Type := DocxState {
  ds_current_speaker : option string;
  ds_current_content : list string;
  ds_utterances : list parsed_utterance
}.

Section ParseDocx.

(** The identifiers drawn by [uuid.uuid4()], in order. *)
Variable fresh : nat → string.

(** [if current_speaker and current_content: utterances.append(...)] *)
Definition docx_flush (st : docx_state) : list parsed_utterance :=
  match ds_current_speaker st, ds_current_content st with
  | Some (String c s), _ :: _ =>
      ds_utterances st
      ++ [ {| pu_utterance_id := fresh (length (ds_utterances st));
              pu_speaker := String c s;
              pu_content := PyStr.join " " (ds_current_content st);
              pu_start_time := None;
              pu_end_time := None;
              pu_duration := None |} ]
  | _, _ => ds_utterances st
  end.

(** One paragraph of the loop of [parse_docx]. *)
Definition docx_step (st : docx_state) (paragraph : string) : docx_state :=
  let text := PyStr.strip paragraph in
  if String.eqb text "" then st
  else
    match speaker_line text with
    | Some (label, body) =>
        {| ds_current_speaker := Some (PyStr.strip label);
           ds_current_content := [PyStr.strip body];
           ds_utterances := docx_flush st |}
    | None =>
        {| ds_current_speaker := ds_current_speaker st;
           ds_current_content := ds_current_content st ++ [text];
           ds_utterances := ds_utterances st |}
    end.

Definition docx_paragraphs (paragraphs : list string) : list parsed_utterance :=
  docx_flush (fold_left docx_step paragraphs (DocxState None [] [])).

(** [parse_docx]; [document] is the outcome of opening the bytes with the
    docx library: the texts of its paragraphs, or the error raised. *)
Definition parse_docx (document : result (list string))
  : result (list parsed_utterance) :=
  match document with
  | Ok paragraphs => Ok (docx_paragraphs paragraphs)
  | Raise e => Raise ("Invalid DOCX format: " +:+ e)
  end.

End ParseDocx.

(** The texts that continue an utterance of a document: the paragraphs that
    are not blank, up to the next speaker line. *)
Fixpoint docx_continuation (paragraphs : list string) : list string :=
  match paragraphs with
  | [] => []
  | paragraph :: rest =>
      let text := PyStr.strip paragraph in
      if String.eqb text "" then docx_continuation rest
      else match speaker_line text with
           | Some _ => []
           | None => text :: docx_continuation rest
           end
  end.

(** The turns of a document: for every speaker line, the label and the
    texts of the utterance that the line starts. *)
Fixpoint docx_turns (paragraphs : list string) : list (string * list string) :=
  match paragraphs with
  | [] => []
  | paragraph :: rest =>
      match speaker_line (PyStr.strip paragraph) with
      | Some (label, body) =>
          (PyStr.strip label, PyStr.strip body :: docx_continuation rest)
          :: docx_turns rest
      | None => docx_turns rest
      end
  end.

(** The dictionary of [parse_docx] for a turn. *)
Definition docx_utterance (utterance_id : string) (turn : string * list string)
  : parsed_utterance :=
  {| pu_utterance_id := utterance_id;
     pu_speaker := turn.1;
     pu_content := PyStr.join " " turn.2;
     pu_start_time := None;
     pu_end_time := None;
     pu_duration := None |}.

(** The meeting date stored with an utterance. *)
Definition resolve_meeting_date (meeting_date : option string)
    (current_time : string) : string :=
  match meeting_date with
  | Some (String c d) =>
      let meeting_date := String c d in
      if (String.length meeting_date =? 10)%nat && (str_count "-" meeting_date =? 2)%nat
      then meeting_date +:+ "T00:00:00Z"
      else meeting_date
  | _ => current_time
  end.

(** [t if t else "00:00:00"] *)
Definition timestamp_or_default (t : option string) : string :=
  match t with
  | Some (String c s) => String c s
  | _ => "00:00:00"
  end.

(** One pass of the loop of [normalize_utterances]; [current_time] is
    [datetime.utcnow().isoformat()] read in that pass. *)
Definition normalize_utterance (meeting_id : string) (meeting_date : option string)
    (current_time : string) (utterance : parsed_utterance) : gmap string value :=
  <["id" := VStr (pu_utterance_id utterance)]>
  (<["meeting_id" := VStr meeting_id]>
  (<["meeting_date" := VStr (resolve_meeting_date meeting_date current_time)]>
  (<["speaker" := VStr (pu_speaker utterance)]>
  (<["department" := VStr "Unknown"]>
  (<["region" := VStr "Unknown"]>
  (<["topics" := VList []]>
  (<["sentiment_score" := VFloat (PyFin 0)]>
  (<["content" := VStr (pu_content utterance)]>
  (<["start_timestamp" := VStr (timestamp_or_default (pu_start_time utterance))]>
  (<["end_timestamp" := VStr (timestamp_or_default (pu_end_time utterance))]>
  (<["duration_seconds" := VFloat (PyFin (default 0%Q (pu_duration utterance)))]>
  (<["created_at" := VStr current_time]>
  (<["updated_at" := VStr current_time]> ∅))))))))))))).

(** [normalize_utterances]; [clock i] is the time read in pass [i]. *)
Definition normalize_utterances (clock : nat → string)
    (utterances : list parsed_utterance) (meeting_id : string)
    (meeting_date : option string) : list (gmap string value) :=
  imap (λ i u, normalize_utterance meeting_id meeting_date (clock i) u) utterances.

(** ** shared/ai_enrichment.py: the meeting summary *)

Definition summary_fallback : json :=
  JObj [("summary", JStr "Unable to generate summary");
        ("actions", JArr []);
        ("risks", JArr []);
        ("sentiment_overall", JStr "neutral")].

(** [summarize_meeting]; [reply] is the answer of the collaborator to the
    summary request and [json_loads] is [json.loads], [None] when it
    raises. *)
Definition summarize_meeting (json_loads : string → option json)
    (reply : completion) : json :=
  match reply with
  | ChatRaised _ => summary_fallback
  | ChatContent summary_text =>
      match json_loads summary_text with
      | Some r => r
      | None => summary_fallback
      end
  end.

(** ** Query-side helpers *)

(** The keys of a sequence in the order of their first occurrence. *)
Definition first_seen (keys : list string) : list string :=
  fold_left (λ seen k, if bool_decide (k ∈ seen) then seen else seen ++ [k]) keys [].

(** The request without one query-string parameter. *)
Definition without_param (name : string) (req : HttpRequest) : HttpRequest :=
  {| req_params := delete name (req_params req);
     req_headers := req_headers req;
     req_json := req_json req |}.

(** How a value kept by [validate_parameters] under [key] derives from the
    value [raw] that the analysis gave for that key. *)
Definition kept_value (py_str : json → string) (key : string) (raw v : json) : Prop :=
  match raw with
  | JNull => False
  | JStr s => s ≠ "null" ∧ PyStr.strip s ≠ "" ∧ v = JStr (PyStr.strip s)
  | JArr items =>
      key = "topics" ∧ items ≠ []
      ∧ v = JArr (map (λ i, JStr (py_str i))
                    (List.filter
                       (λ i, truthy i && negb (String.eqb (PyStr.strip (py_str i)) ""))
                       items))
  | _ => v = JStr (py_str raw)
  end.

(** What holds of every utterance a caption parser emits: a content that
    is not empty, a speaker label shorter than 50 characters, and times in
    seconds converted from the time strings. *)
Definition emitted_utterance (py_int : string → option Z) (u : raw_utterance) : Prop :=
  ru_content u ≠ ""
  ∧ (String.length (ru_speaker u) < 50)%nat
  ∧ ru_start_time_seconds u = time_to_seconds py_int (ru_start_time u)
  ∧ ru_end_time_seconds u = time_to_seconds py_int (ru_end_time u)
  ∧ ru_duration u = (ru_end_time_seconds u - ru_start_time_seconds u)%Q.

(** The lines that remain once the blank lines at the front are passed. *)
Fixpoint skip_blank_lines (lines : list string) : list string :=
  match lines with
  | [] => []
  | l :: lines' =>
      if String.eqb (PyStr.strip l) "" then skip_blank_lines lines' else lines
  end.

(** More fixtures for concrete runs. *)
Module Fixture.

(** [json.loads] of an intent analysis with a department parameter. *)
Definition analysis_about (intent department : string) : string → option json :=
  λ _, Some (JObj [("intent", JStr intent);
                   ("parameters", JObj [("department", JStr department)])]).

Definition cue (start_time end_time text : string) : caption :=
  {| cap_start := start_time; cap_end := end_time; cap_text := text |}.

End Fixture.

(** * Properties *)

Local Open Scope nat_scope.

(** ** Floats and clamping *)

Lemma Qltb_true (a b : Q) : Qltb a b = true ↔ (a < b)%Q.
Proof.
  unfold Qltb. rewrite negb_true_iff, <- not_true_iff_false, Qle_bool_iff.
  split; [apply Qnot_le_lt | apply Qlt_not_le].
Qed.

Lemma Qltb_false (a b : Q) : Qltb a b = false ↔ (b <= a)%Q.
Proof.
  unfold Qltb. rewrite negb_false_iff. apply Qle_bool_iff.
Qed.

(** Clamping a finite float gives the finite float nearest to it in
    [[-1, 1]]. *)
Lemma clamp_finite (q : Q) :
  ∃ r, py_max (PyFin (-1)) (py_min (PyFin 1) (PyFin q)) = PyFin r
       ∧ (-1 <= r)%Q ∧ (r <= 1)%Q ∧ (r == Qmax (-1) (Qmin 1 q))%Q.
Proof.
  unfold py_min. cbn [py_ltb]. fold (Qltb q 1).
  destruct (Qltb q 1) eqn:Hhi.
  - apply Qltb_true in Hhi.
    unfold py_max. cbn [py_ltb]. fold (Qltb (-1) q).
    destruct (Qltb (-1) q) eqn:Hlo.
    + apply Qltb_true in Hlo. exists q. split; [done|].
      split; [by apply Qlt_le_weak|]. split; [by apply Qlt_le_weak|].
      rewrite (Q.min_r 1 q) by (by apply Qlt_le_weak).
      by rewrite Q.max_r by (by apply Qlt_le_weak).
    + apply Qltb_false in Hlo. exists (-1)%Q. split; [done|].
      split; [apply Qle_refl|]. split; [done|].
      rewrite (Q.min_r 1 q) by (by apply Qlt_le_weak).
      by rewrite Q.max_l.
  - apply Qltb_false in Hhi. exists 1%Q. split; [done|].
    split; [done|]. split; [apply Qle_refl|].
    rewrite (Q.min_l 1 q) by done. by rewrite Q.max_r.
Qed.

(** The clamp never leaves [[-1, 1]], whatever float it is given. *)
Lemma clamp_in_range (x : pyfloat) :
  in_range (-1) 1 (py_max (PyFin (-1)) (py_min (PyFin 1) x)).
Proof.
  destruct x as [q|[]|].
  - destruct (clamp_finite q) as (r & -> & ? & ? & _). by split.
  - by split.
  - by split.
  - by split.
Qed.

(** ** Enrichment *)

Section EnrichmentProperties.

Variable py_float : string → option pyfloat.
Variable json_entities : string → option entities.
Variable client : Collaborator.

Local Abbreviation analyze := (analyze_sentiment py_float client).
Local Abbreviation enrich_one := (enrich_utterance py_float json_entities client).

Lemma analyze_sentiment_in_range call text :
  in_range (-1) 1 (analyze call text).
Proof.
  unfold analyze_sentiment.
  destruct (chat client call (SentimentPrompt text)) as [msg|content].
  { by split. }
  destruct (py_float (PyStr.strip content)) as [x|].
  { apply clamp_in_range. }
  repeat case_match; by split.
Qed.

(** What one pass of the loop leaves in the copy of the utterance. *)
Lemma enrich_utterance_spec i u e :
  enrich_one i u = Ok e →
  (∀ k, k ∉ ["sentiment_score"; "entities"; "department"; "region"] →
        e !! k = u !! k)
  ∧ (∃ content, u !! "content" = Some content
                ∧ e !! "sentiment_score" = Some (VFloat (analyze (2 * i) content)))
  ∧ (∃ ents, e !! "entities" = Some (VEntities ents)
             ∧ (organizations ents = [] → e !! "department" = u !! "department")
             ∧ (locations ents = [] → e !! "region" = u !! "region")).
Proof.
  unfold enrich_utterance.
  destruct (u !! "content") as [content|] eqn:Hc; [|done].
  remember (analyze (2 * i) content) as score eqn:Hscore.
  remember (extract_entities json_entities client (2 * i + 1) content) as ents.
  intros Heq. injection Heq as <-.
  split; [|split].
  - intros k Hk.
    assert ("sentiment_score" ≠ k ∧ "entities" ≠ k
            ∧ "department" ≠ k ∧ "region" ≠ k) as (? & ? & ? & ?).
    { rewrite !not_elem_of_cons in Hk. destruct Hk as (? & ? & ? & ? & _).
      repeat split; congruence. }
    destruct (locations ents), (organizations ents);
      by rewrite ?lookup_insert_ne by done.
  - exists content. split; [done|]. rewrite <- Hscore.
    destruct (locations ents), (organizations ents);
      rewrite ?lookup_insert_ne by done; by rewrite lookup_insert_eq.
  - exists ents. split; [|split].
    + destruct (locations ents), (organizations ents);
        rewrite ?lookup_insert_ne by done; by rewrite lookup_insert_eq.
    + intros ->. destruct (locations ents);
        by rewrite ?lookup_insert_ne by done.
    + intros ->. destruct (organizations ents);
        by rewrite ?lookup_insert_ne by done.
Qed.

Lemma enrich_from_lookup utterances : ∀ i enriched,
  enrich_from py_float json_entities client i utterances = Ok enriched →
  length enriched = length utterances
  ∧ ∀ j u, utterances !! j = Some u →
           ∃ e, enriched !! j = Some e ∧ enrich_one (i + j) u = Ok e.
Proof.
  induction utterances as [|u0 rest IH]; intros i enriched; cbn [enrich_from].
  { intros [= <-]. split; [done|]. intros j u Hj. by destruct j. }
  destruct (enrich_one i u0) as [e0|] eqn:H0; [|done]. cbn.
  destruct (enrich_from py_float json_entities client (S i) rest)
    as [es|] eqn:Hrest; [|done]. cbn.
  intros [= <-]. destruct (IH _ _ Hrest) as [Hlen Hlook].
  split; [cbn; by rewrite Hlen|].
  intros [|j] u Hj; cbn in Hj.
  - injection Hj as <-. exists e0. by rewrite Nat.add_0_r.
  - destruct (Hlook j u Hj) as (e & He & Hrun). exists e.
    split; [done|]. by rewrite Nat.add_succ_r.
Qed.


End EnrichmentProperties.

(** C1. Whatever the collaborator answers to the sentiment request (a
    number, a phrase, garbage, or a raised error), the value returned by
    [analyze_sentiment], and stored as [sentiment_score] by
    [enrich_utterances], lies in [[-1, 1]].  A numeric answer is clamped
    into [[-1, 1]]; an answer that is not a number gives 0.5 when it contains
    "positive", otherwise -0.5 when it contains "negative", otherwise 0.0;
    a raised error gives 0.0. *)
Theorem analyze_sentiment_range
    (py_float : string → option pyfloat)
    (json_entities : string → option entities) (client : Collaborator) :
  (∀ call text, in_range (-1) 1 (analyze_sentiment py_float client call text))
  ∧ (∀ call text msg,
       chat client call (SentimentPrompt text) = ChatRaised msg →
       analyze_sentiment py_float client call text = PyFin 0)
  ∧ (∀ call text content,
       chat client call (SentimentPrompt text) = ChatContent content →
       let reply := PyStr.strip content in
       let score := analyze_sentiment py_float client call text in
       (∀ q, py_float reply = Some (PyFin q) →
             ∃ r, score = PyFin r ∧ (r == Qmax (-1) (Qmin 1 q))%Q)
       ∧ (py_float reply = None →
          PyStr.contains "positive" (PyStr.lower reply) = true →
          score = PyFin (1 # 2))
       ∧ (py_float reply = None →
          PyStr.contains "positive" (PyStr.lower reply) = false →
          PyStr.contains "negative" (PyStr.lower reply) = true →
          score = PyFin (- (1 # 2)))
       ∧ (py_float reply = None →
          PyStr.contains "positive" (PyStr.lower reply) = false →
          PyStr.contains "negative" (PyStr.lower reply) = false →
          score = PyFin 0))
  ∧ (∀ utterances enriched,
       enrich_utterances py_float json_entities client utterances = Ok enriched →
       Forall (λ e : gmap string value,
                 ∃ x, e !! "sentiment_score" = Some (VFloat x) ∧ in_range (-1) 1 x)
              enriched).
Proof.
  split; [|split; [|split]].
  - apply analyze_sentiment_in_range.
  - intros call text msg Hchat. unfold analyze_sentiment. by rewrite Hchat.
  - intros call text content Hchat reply score. subst score.
    unfold analyze_sentiment. rewrite Hchat. fold reply.
    repeat split.
    + intros q ->. destruct (clamp_finite q) as (r & Hr & _ & _ & Heq). eauto.
    + by intros -> ->.
    + by intros -> -> ->.
    + by intros -> -> ->.
  - intros utterances enriched Hrun.
    apply (enrich_from_lookup py_float json_entities client) in Hrun as [Hlen Hlook].
    apply Forall_lookup_2. intros j e He.
    destruct (lookup_lt_is_Some_2 utterances j) as [u Hu].
    { rewrite <- Hlen. by eapply lookup_lt_Some. }
    destruct (Hlook j u Hu) as (e' & He' & Hone).
    assert (e' = e) as -> by congruence.
    apply enrich_utterance_spec in Hone as (_ & (content & _ & Hs) & _).
    eexists. split; [exact Hs|]. apply analyze_sentiment_in_range.
Qed.

Lemma analyze_sentiment_range_witness :
  analyze_sentiment Sample.py_float
    (Sample.constant_client (ChatContent "Mostly Positive") (EmbedData []))
    0 (VStr "we shipped on time")
  = PyFin (1 # 2).
Proof.
  pose proof (analyze_sentiment_range Sample.py_float (λ _, None)
                (Sample.constant_client (ChatContent "Mostly Positive") (EmbedData [])))
    as (_ & _ & H & _).
  apply (H 0%nat (VStr "we shipped on time") "Mostly Positive"); reflexivity.
Defined.



(** ** Strings *)

Lemma lower_char_idemp (c : ascii) :
  PyStr.lower_char (PyStr.lower_char c) = PyStr.lower_char c.
Proof. by destruct c as [[] [] [] [] [] [] [] []]. Qed.

Lemma prefix_of_lower (needle : string) : ∀ s,
  String.prefix needle (PyStr.lower s) = true → PyStr.lower needle = needle.
Proof.
  induction needle as [|a needle IH]; intros s; [done|].
  destruct s as [|b s]; cbn; [done|].
  destruct (ascii_dec a (PyStr.lower_char b)) as [->|]; [|done].
  intros Hp. by rewrite lower_char_idemp, (IH s Hp).
Qed.

(** Only text without capitals is found in lowered text. *)
Lemma contains_in_lower (needle : string) : ∀ s,
  PyStr.contains needle (PyStr.lower s) = true → PyStr.lower needle = needle.
Proof.
  induction s as [|b s IH]; cbn [PyStr.lower PyStr.contains].
  - rewrite orb_false_r. apply (prefix_of_lower needle "").
  - intros [Hp|Hc]%orb_true_iff; [|by apply IH].
    by apply (prefix_of_lower needle (String b s)).
Qed.

(** Evaluate [lower] on the string literals of the goal. *)
Ltac lower_literals :=
  repeat match goal with
         | |- context [PyStr.lower (String ?a ?r)] =>
             let v := eval vm_compute in (PyStr.lower (String a r)) in
             change (PyStr.lower (String a r)) with v
         end.

(** ** Topic inference *)

Lemma collect_embeddings_ok (client : Collaborator) (texts : list string) : ∀ call,
  (∀ i t, texts !! i = Some t →
          ∃ v, first_embedding (embed client (call + i) t) = Ok v) →
  ∃ vs, collect_embeddings client call texts = Ok vs.
Proof.
  induction texts as [|t texts IH]; intros call Hall; cbn [collect_embeddings].
  { by eexists. }
  destruct (Hall 0%nat t eq_refl) as [v Hv]. rewrite Nat.add_0_r in Hv.
  destruct (IH (S call)) as [vs Hvs].
  { intros i t' Hi. rewrite Nat.add_succ_l, <- Nat.add_succ_r. by apply (Hall (S i)). }
  rewrite Hv, Hvs. cbn. by eexists.
Qed.

(** On lowered text without "rpet", matching the keywords as written
    and matching them with letter case ignored select the same topics. *)
Lemma match_topics_ignoring_case (combined : string) :
  PyStr.contains "rpet" (PyStr.lower combined) = false →
  match_topics (PyStr.lower combined)
  = map fst
      (List.filter (λ entry, existsb (λ keyword, Spec.occurs_ignoring_case keyword combined)
                                     (snd entry))
                   topic_keywords).
Proof.
  intros Hrpet. unfold match_topics. f_equal.
  apply filter_ext_in. intros [topic keywords] Hin.
  cbn [snd]. unfold Spec.occurs_ignoring_case.
  assert (PyStr.contains "rPET" (PyStr.lower combined) = false) as Hcaps.
  { destruct (PyStr.contains "rPET" (PyStr.lower combined)) eqn:E; [|done].
    by apply contains_in_lower in E. }
  unfold topic_keywords in Hin. cbn [In] in Hin.
  repeat (destruct Hin as [[= <- <-]|Hin];
          [cbn [existsb]; lower_literals; by rewrite ?Hcaps, ?Hrpet|]).
  done.
Qed.

Lemma collect_embeddings_raise (client : Collaborator) (texts : list string) : ∀ call,
  (∃ i t msg, texts !! i = Some t
              ∧ first_embedding (embed client (call + i) t) = Raise msg) →
  ∃ msg, collect_embeddings client call texts = Raise msg.
Proof.
  induction texts as [|t texts IH]; intros call (i & t' & msg & Hi & Hraise).
  { by destruct i. }
  cbn [collect_embeddings].
  destruct (first_embedding (embed client call t)) as [v|m] eqn:Hv; [|by eexists].
  cbn. destruct i as [|i]; cbn in Hi.
  { injection Hi as <-. rewrite Nat.add_0_r in Hraise. congruence. }
  destruct (IH (S call)) as [m Hm].
  { exists i, t', msg. split; [done|]. by rewrite Nat.add_succ_l, <- Nat.add_succ_r. }
  rewrite Hm. by eexists.
Qed.

(** C2, as the code has it.  When every embedding call of the run returns
    a vector and the combined text does not mention "rPET" in any letter
    case, the topics returned by [generate_topics] are those of the pure
    keyword rule over the texts joined by single spaces (the sentinel
    [general_discussion] when no topic matches); when an embedding call
    raises, the result is the sentinel alone. *)
Theorem generate_topics_keyword_rule
    (client : Collaborator) (call : nat) (texts : list string) :
  ((∀ i t, texts !! i = Some t →
           ∃ v, first_embedding (embed client (call + i) t) = Ok v) →
   PyStr.contains "rpet" (PyStr.lower (PyStr.join " " texts)) = false →
   generate_topics client call texts = Spec.keyword_rule texts)
  ∧ ((∃ i t msg, texts !! i = Some t
                 ∧ first_embedding (embed client (call + i) t) = Raise msg) →
     generate_topics client call texts = ["general_discussion"]).
Proof.
  split.
  - intros Hembed Hrpet. unfold generate_topics, Spec.keyword_rule.
    destruct (collect_embeddings_ok client texts call Hembed) as [vs ->].
    by rewrite match_topics_ignoring_case.
  - intros Hraise. unfold generate_topics.
    by destruct (collect_embeddings_raise client texts call Hraise) as [msg ->].
Qed.

Lemma generate_topics_keyword_rule_witness :
  generate_topics
    (Sample.constant_client (ChatRaised "unused") (EmbedData [[1 # 2; 1 # 3]%Q]))
    0 ["Our new product line"; "uses less sugar"]
  = Spec.keyword_rule ["Our new product line"; "uses less sugar"].
Proof.
  apply generate_topics_keyword_rule.
  - intros i t _. by eexists.
  - reflexivity.
Defined.

(** C2 as stated fails: with a raising embedding service the keyword match
    is not consulted. *)
Lemma generate_topics_embedding_failure :
  generate_topics Sample.failing_client 0 ["We cut sugar in every bottle"]
  = ["general_discussion"]
  ∧ Spec.keyword_rule ["We cut sugar in every bottle"]
    = ["sugar_reduction"; "packaging"]
  ∧ generate_topics Sample.failing_client 0 ["We cut sugar in every bottle"]
    ≠ Spec.keyword_rule ["We cut sugar in every bottle"].
Proof. by vm_compute. Qed.

(** ** Speaker extraction *)

Lemma prefix_empty (s : string) : String.prefix "" s = true.
Proof. by destruct s. Qed.

Lemma contains_colon (s : string) :
  PyStr.contains ":" s = match PyStr.split_first ":" s with
                         | Some _ => true
                         | None => false
                         end.
Proof.
  induction s as [|c s IH]; [done|].
  cbn [PyStr.contains PyStr.split_first String.prefix].
  destruct (ascii_dec ":" c) as [<-|Hne].
  - by rewrite prefix_empty.
  - rewrite IH. destruct (Ascii.eqb_spec c ":") as [->|_]; [done|].
    by destruct (PyStr.split_first ":" s) as [[? ?]|].
Qed.

(** [split_first] cuts at the first separator. *)
Lemma split_first_spec (sep : ascii) (s : string) : ∀ before after,
  PyStr.split_first sep s = Some (before, after) →
  s = before +:+ String sep after ∧ Spec.count_char sep before = 0%nat.
Proof.
  induction s as [|c s IH]; intros before after; cbn [PyStr.split_first]; [done|].
  destruct (Ascii.eqb_spec c sep) as [->|Hne].
  { by intros [= <- <-]. }
  destruct (PyStr.split_first sep s) as [[b a]|]; [|done].
  intros [= <- <-]. destruct (IH b a eq_refl) as [-> Hcount].
  split; [done|]. cbn. rewrite Hcount.
  by destruct (Ascii.eqb_spec c sep).
Qed.

(** The two parsers extract the speaker in the same way. *)
Lemma fallback_speaker_content_eq (text : string) :
  fallback_speaker_content text = vtt_speaker_content text.
Proof. reflexivity. Qed.

Lemma vtt_speaker_content_rule (text : string) :
  vtt_speaker_content text
  = match PyStr.split_first ":" (PyStr.strip text) with
    | Some (before, after) =>
        if (String.length (PyStr.strip before) <? 50)%nat
        then (PyStr.strip before, PyStr.strip after)
        else ("Unknown Speaker", PyStr.strip text)
    | None => ("Unknown Speaker", PyStr.strip text)
    end.
Proof.
  unfold vtt_speaker_content, split_colon_once. rewrite contains_colon.
  by destruct (PyStr.split_first ":" (PyStr.strip text)) as [[before after]|].
Qed.

(** C8, as the code has it.  On the trimmed text of a cue, both caption
    parsers read [speaker: remainder] exactly when the text contains a [:]
    and the trimmed part before the first [:] is shorter than 50
    characters; otherwise the speaker is "Unknown Speaker" and the whole
    text is the content.  Both parsers build the same utterance from the
    same cue. *)
Theorem speaker_extraction_rule (py_int : string → option Z) (text : string) :
  let content := PyStr.strip text in
  fallback_speaker_content text = vtt_speaker_content text
  ∧ (∀ start_time end_time,
       fallback_cue_utterance py_int start_time end_time text
       = vtt_caption_utterance py_int (Caption start_time end_time text))
  ∧ match PyStr.split_first ":" content with
    | Some (before, after) =>
        content = before +:+ String ":" after
        ∧ Spec.count_char ":" before = 0%nat
        ∧ vtt_speaker_content text
          = if (String.length (PyStr.strip before) <? 50)%nat
            then (PyStr.strip before, PyStr.strip after)
            else ("Unknown Speaker", content)
    | None =>
        Spec.count_char ":" content = 0%nat
        ∧ vtt_speaker_content text = ("Unknown Speaker", content)
    end.
Proof.
  intros content. split; [reflexivity|]. split; [reflexivity|].
  rewrite vtt_speaker_content_rule. fold content.
  destruct (PyStr.split_first ":" content) as [[before after]|] eqn:Hsplit.
  - destruct (split_first_spec _ _ _ _ Hsplit) as [Heq Hcount]. by repeat split.
  - split; [|done]. clear -Hsplit. induction content as [|c s IH]; [done|].
    cbn in *. destruct (Ascii.eqb_spec c ":"); [done|].
    destruct (PyStr.split_first ":" s) as [[? ?]|]; [done|]. by apply IH.
Qed.

(** C8 as stated fails at the boundary: a name of exactly 50 characters is
    not taken as the speaker. *)
Lemma speaker_of_50_characters_rejected :
  String.length Sample.long_title = 50%nat
  ∧ Spec.speaker_rule (Sample.long_title +:+ ": Welcome everyone")
    = (Sample.long_title, "Welcome everyone")
  ∧ vtt_speaker_content (Sample.long_title +:+ ": Welcome everyone")
    = ("Unknown Speaker", Sample.long_title +:+ ": Welcome everyone")
  ∧ fallback_speaker_content (Sample.long_title +:+ ": Welcome everyone")
    = ("Unknown Speaker", Sample.long_title +:+ ": Welcome everyone").
Proof. by vm_compute. Qed.

(** ** Pagination of the utterances endpoint *)

Lemma utterances_page_top (py_int : string → option Z) (req : HttpRequest) :
  (fst (utterances_page py_int req) <= 100)%Z.
Proof.
  unfold utterances_page. destruct (pagination py_int (req_params req)) as [top skip].
  cbn. lia.
Qed.

(** C10. The page size handed to retrieval never exceeds 100, whatever
    [top] the caller supplies; an unparsable [top] or [skip] is replaced by
    the defaults 50 and 0, and the request is answered, not rejected. *)
Theorem utterances_page_bounded
    (py_float : string → option pyfloat) (py_int : string → option Z)
    (req : HttpRequest) :
  (fst (utterances_page py_int req) <= 100)%Z
  ∧ ((∃ s, req_params req !! "top" = Some s ∧ py_int s = None)
     ∨ (∃ s, req_params req !! "skip" = Some s ∧ py_int s = None) →
     utterances_page py_int req = (50, 0)%Z)
  ∧ (∀ backend, storage_init backend = Ok () →
       status_code (insights_utterances_main py_float py_int backend req) = 200%nat)
  ∧ (∀ b1 b2,
       storage_init b1 = storage_init b2 →
       (∀ p, (sp_top p <= 100)%Z →
             search_client_search b1 p = search_client_search b2 p) →
       insights_utterances_main py_float py_int b1 req
       = insights_utterances_main py_float py_int b2 req).
Proof.
  split; [apply utterances_page_top|]. split; [|split].
  - unfold utterances_page, pagination, int_param.
    intros [(s & -> & ->)|(s & -> & ->)]; [done|].
    by destruct (req_params req !! "top") as [t|]; [destruct (py_int t)|].
  - intros backend Hinit. unfold insights_utterances_main.
    destruct (utterances_page py_int req) as [top skip]. by rewrite Hinit.
  - intros b1 b2 Hinit Hsearch. unfold insights_utterances_main.
    pose proof (utterances_page_top py_int req) as Htop.
    destruct (utterances_page py_int req) as [top skip]. cbn in Htop.
    rewrite <- Hinit. destruct (storage_init b1) as [[]|e]; [|done].
    unfold search_utterances. by rewrite Hsearch.
Qed.

Lemma utterances_page_bounded_witness :
  utterances_page Sample.py_int (Sample.request [("top", "lots"); ("skip", "20")] [])
  = (50, 0)%Z.
Proof.
  apply (utterances_page_bounded Sample.py_float Sample.py_int).
  left. exists "lots". by vm_compute.
Defined.

(** ** Storage failures *)





(** ** Error responses *)

Section ErrorEnvelope.

Variable py_float : string → option pyfloat.
Variable json_loads : string → option json.
Variable py_str : json → string.
Variable subscript_error items_error : json → string.
Variable deployment_name : string.
Variable client_init : result unit.
Variable client : Collaborator.
Variable backend : Backend.

Local Abbreviation chat_endpoint :=
  (chat_main json_loads py_str subscript_error items_error deployment_name
             client_init client backend).

Lemma trends_main_cases (req : HttpRequest) :
  let r := insights_trends_main py_float backend req in
  status_code r = 200%nat
  ∨ r = key_required
  ∨ ∃ e, storage_init backend = Raise e ∧ r = internal_error e.
Proof.
  unfold insights_trends_main.
  destruct (negb (is_localhost req) && negb (has_function_key req)); [by right; left|].
  destruct (storage_init backend) as [[]|e]; [by left|].
  right; right. by exists e.
Qed.

Lemma speakers_main_cases (req : HttpRequest) :
  let r := insights_speakers_main py_float backend req in
  status_code r = 200%nat
  ∨ r = key_required
  ∨ ∃ e, storage_init backend = Raise e ∧ r = internal_error e.
Proof.
  unfold insights_speakers_main.
  destruct (negb (is_localhost req) && negb (has_function_key req)); [by right; left|].
  destruct (storage_init backend) as [[]|e]; [by left|].
  right; right. by exists e.
Qed.

Lemma chat_main_cases (req : HttpRequest) :
  let r := chat_endpoint req in
  status_code r = 200%nat
  ∨ r = key_required
  ∨ r = bad_request "Invalid JSON in request body"
  ∨ r = bad_request "Question is required"
  ∨ ∃ e, (req_json req = Some (PayloadOther e)
          ∨ storage_init backend = Raise e
          ∨ client_init = Raise e)
         ∧ r = chat_internal_error e.
Proof.
  unfold chat_main.
  destruct (negb (is_localhost req) && negb (has_function_key req)); [by right; left|].
  destruct (req_json req) as [[question context|e]|]; cbn [respond].
  - destruct (String.eqb (default "" question) ""); [by do 3 right; left|].
    destruct (storage_init backend) as [[]|e]; cbn.
    + destruct client_init as [[]|e]; cbn; [by left|].
      do 4 right. exists e. auto.
    + do 4 right. exists e. auto.
  - do 4 right. exists e. auto.
  - by do 2 right; left.
Qed.

End ErrorEnvelope.

(** C4, as the code has it.  A request to the chat, trends or speakers
    endpoint that does not end with status 200 gets a JSON object: the
    fixed [error] message alone for 400 and 401, and for 500 the object
    with [error] = "Internal server error" and [details] = the message of
    the exception that ended the request (the chat endpoint adds a fixed
    [answer]); no stack trace is part of the body. *)
Theorem error_envelope
    (py_float : string → option pyfloat) (json_loads : string → option json)
    (py_str : json → string) (subscript_error items_error : json → string)
    (deployment_name : string) (client_init : result unit)
    (client : Collaborator) (backend : Backend) (req : HttpRequest) :
  (let r := insights_trends_main py_float backend req in
   status_code r = 200%nat
   ∨ r = key_required
   ∨ ∃ e, storage_init backend = Raise e ∧ r = internal_error e)
  ∧ (let r := insights_speakers_main py_float backend req in
     status_code r = 200%nat
     ∨ r = key_required
     ∨ ∃ e, storage_init backend = Raise e ∧ r = internal_error e)
  ∧ (let r := chat_main json_loads py_str subscript_error items_error
                deployment_name client_init client backend req in
     status_code r = 200%nat
     ∨ r = key_required
     ∨ r = bad_request "Invalid JSON in request body"
     ∨ r = bad_request "Question is required"
     ∨ ∃ e, (req_json req = Some (PayloadOther e)
             ∨ storage_init backend = Raise e
             ∨ client_init = Raise e)
            ∧ r = chat_internal_error e)
  ∧ (∀ e, body (internal_error e)
          = JObj [("error", JStr "Internal server error"); ("details", JStr e)]).
Proof.
  split; [apply trends_main_cases|]. split; [apply speakers_main_cases|].
  split; [apply chat_main_cases|]. done.
Qed.

(** C4 as stated fails: the message of the exception is part of the body
    of the 500 response. *)
Lemma error_body_carries_exception_message :
  insights_trends_main Sample.py_float
    (Sample.storage_misconfigured "Invalid connection string: AccountKey=k3y")
    (Sample.request [("code", "fn-key")] [])
  = {| status_code := 500;
       body := JObj [("error", JStr "Internal server error");
                     ("details", JStr "Invalid connection string: AccountKey=k3y")] |}.
Proof. by vm_compute. Qed.

(** ** Chat confidence *)

Section ChatProperties.

Variable json_loads : string → option json.
Variable py_str : json → string.
Variable subscript_error items_error : json → string.
Variable deployment_name : string.
Variable client : Collaborator.
Variable backend : Backend.

Local Abbreviation run :=
  (process_query json_loads py_str subscript_error items_error deployment_name
                 client backend).
Local Abbreviation analysis_of :=
  (extract_intent_and_parameters json_loads client).

(** A query whose analysis has no [intent] ends in the [except] branch:
    confidence 0.0, empty data, and the message in [error]. *)
Lemma process_query_failure question context e :
  subscript subscript_error (analysis_of question) "intent" = Raise e →
  run question context = query_failure e
  ∧ (cr_confidence (run question context) == 0)%Q
  ∧ cr_data (run question context) = JObj [].
Proof.
  intros Hraise. unfold process_query. rewrite Hraise. cbn.
  split; [done|]. unfold query_failure. by case_match.
Qed.

(** For the [speakers] and [sentiment] intents the confidence is 0.85
    whatever the corpus holds. *)
Lemma process_query_speakers_confidence question context intent parameters :
  subscript subscript_error (analysis_of question) "intent" = Ok intent →
  subscript subscript_error (analysis_of question) "parameters" = Ok (JObj parameters) →
  is_str intent "speakers" || is_str intent "sentiment" = true →
  cr_confidence (run question context) = (85 # 100)%Q.
Proof.
  intros Hi Hp Hintent. unfold process_query. rewrite Hi, Hp. cbn.
  destruct (gather backend intent) as [data sources] eqn:Hg. cbn.
  assert (is_str intent "trends" = false) as Ht.
  { destruct intent; try done. cbn in *.
    destruct (String.eqb_spec s "trends") as [->|]; done. }
  assert (truthy data = true) as Hd.
  { unfold gather in Hg. rewrite Ht in Hg.
    destruct (is_str intent "speakers"); [by injection Hg as <- _|].
    cbn in Hintent. assert (is_str intent "utterances" = false) as Hu.
    { destruct intent; try done. cbn in *.
      destruct (String.eqb_spec s "utterances") as [->|]; done. }
    rewrite Hu, Hintent in Hg. by injection Hg as <- _. }
  unfold has_data. by rewrite Ht, Hintent, Hd.
Qed.

End ChatProperties.

(** C7 fails on the code.  With an empty corpus the [speakers] and
    [sentiment] intents still report confidence 0.85, because the emptiness
    test looks at a dictionary that always has a key; the [trends] and
    [utterances] intents report 0.3 there, and an intent outside the four
    tested ones reports 0.3 even when utterances were found. *)
Theorem chat_confidence_on_empty_corpus :
  cr_confidence (Sample.chat_run "speakers" []) = (85 # 100)%Q
  ∧ cr_data (Sample.chat_run "speakers" []) = JObj [("speakers", JObj [])]
  ∧ cr_confidence (Sample.chat_run "sentiment" []) = (85 # 100)%Q
  ∧ cr_confidence (Sample.chat_run "trends" []) = (3 # 10)%Q
  ∧ cr_confidence (Sample.chat_run "utterances" []) = (3 # 10)%Q
  ∧ cr_confidence
      (Sample.chat_run "topics"
         [Sample.doc "Ana" "Packaging costs fell" ["packaging"] (1 # 5)])
    = (3 # 10)%Q.
Proof. by vm_compute. Qed.

(** ** Stable descending sort *)

Section SortDescProperties.
Context {A : Type} (key : A → nat).

Local Abbreviation desc := (desc key).

Lemma insert_desc_perm x l : insert_desc key x l ≡ₚ x :: l.
Proof.
  induction l as [|y l IH]; cbn [insert_desc]; [done|].
  destruct (key x <? key y)%nat; [|done].
  rewrite IH. apply Permutation_swap.
Qed.

Lemma sort_desc_perm l : sort_desc key l ≡ₚ l.
Proof.
  induction l as [|x l IH]; [done|].
  change (sort_desc key (x :: l)) with (insert_desc key x (sort_desc key l)).
  by rewrite insert_desc_perm, IH.
Qed.

Lemma insert_desc_sorted x l :
  StronglySorted desc l → StronglySorted desc (insert_desc key x l).
Proof.
  induction 1 as [|y l Hsorted IH Hall]; cbn [insert_desc].
  { repeat constructor. }
  destruct (Nat.ltb_spec (key x) (key y)) as [Hlt|Hge].
  - constructor; [done|].
    rewrite insert_desc_perm. constructor; [unfold desc; lia|done].
  - constructor; [by constructor|].
    constructor; [done|].
    eapply Forall_impl; [exact Hall|]. unfold desc. intros z Hz. lia.
Qed.

Lemma sort_desc_sorted l : StronglySorted desc (sort_desc key l).
Proof.
  induction l as [|x l IH]; [constructor|].
  change (sort_desc key (x :: l)) with (insert_desc key x (sort_desc key l)).
  by apply insert_desc_sorted.
Qed.

Lemma strongly_sorted_lookup (l : list A) : ∀ i j a b,
  StronglySorted desc l → i ≤ j →
  l !! i = Some a → l !! j = Some b → key b ≤ key a.
Proof.
  induction l as [|x l IH]; intros i j a b Hs Hij Hi Hj; [by destruct i|].
  apply StronglySorted_inv in Hs as [Hs Hall].
  destruct i as [|i], j as [|j]; cbn in *.
  - by simplify_eq.
  - simplify_eq. rewrite Forall_forall in Hall.
    apply Hall. by eapply list_elem_of_lookup_2.
  - lia.
  - eapply (IH i j); [done|lia|done..].
Qed.


End SortDescProperties.

(** ** Ordered dictionaries *)

Section ODProperties.
Context {V : Type}.
Implicit Types (d : OD.odict V) (k : string) (v : V).

Lemma od_mem_keys k d : OD.mem k d = true ↔ k ∈ OD.keys d.
Proof.
  unfold OD.mem. induction d as [|[k' v'] d IH]; cbn.
  { split; [done|]. by intros ?%elem_of_nil. }
  rewrite elem_of_cons. destruct (String.eqb_spec k k') as [->|Hne].
  - split; auto.
  - rewrite IH. split; [auto|]. by intros [?|?].
Qed.

Lemma od_get_set k k' v d :
  OD.get k' (OD.set k v d) = if String.eqb k' k then Some v else OD.get k' d.
Proof.
  induction d as [|[k0 v0] d IH]; cbn.
  { by destruct (String.eqb k' k). }
  destruct (String.eqb_spec k k0) as [->|Hne]; cbn.
  - by destruct (String.eqb k' k0).
  - rewrite IH. destruct (String.eqb_spec k' k0) as [->|]; [|done].
    by destruct (String.eqb_spec k0 k) as [->|].
Qed.

Lemma od_get_alter f k k' d :
  OD.get k' (OD.alter f k d)
  = if String.eqb k' k then f <$> OD.get k' d else OD.get k' d.
Proof.
  induction d as [|[k0 v0] d IH]; cbn.
  { by destruct (String.eqb k' k). }
  destruct (String.eqb_spec k k0) as [->|Hne]; cbn.
  - by destruct (String.eqb k' k0).
  - rewrite IH. destruct (String.eqb_spec k' k0) as [->|]; [|done].
    by destruct (String.eqb_spec k0 k) as [->|].
Qed.

Lemma od_keys_alter f k d : OD.keys (OD.alter f k d) = OD.keys d.
Proof.
  unfold OD.keys. induction d as [|[k0 v0] d IH]; cbn; [done|].
  destruct (String.eqb k k0); cbn; [done|]. by rewrite IH.
Qed.

Lemma od_keys_set k v d :
  OD.keys (OD.set k v d) = if OD.mem k d then OD.keys d else OD.keys d ++ [k].
Proof.
  unfold OD.keys, OD.mem. induction d as [|[k0 v0] d IH]; cbn; [done|].
  destruct (String.eqb k k0); cbn; [done|]. rewrite IH.
  by destruct (OD.get k d).
Qed.

Lemma od_get_elem k v d :
  NoDup (OD.keys d) → (k, v) ∈ d → OD.get k d = Some v.
Proof.
  unfold OD.keys. induction d as [|[k0 v0] d IH]; cbn.
  { by intros _ ?%elem_of_nil. }
  intros [Hfresh Hnd]%NoDup_cons [Heq|Hin]%elem_of_cons.
  - injection Heq as -> ->. by rewrite String.eqb_refl.
  - destruct (String.eqb_spec k k0) as [->|]; [|by apply IH].
    destruct Hfresh. apply list_elem_of_fmap. by exists (k0, v).
Qed.

End ODProperties.

Lemma od_mem_same_keys {V W} (k : string) (d : OD.odict V) (d' : OD.odict W) :
  OD.keys d = OD.keys d' → OD.mem k d = OD.mem k d'.
Proof.
  intros Hk. apply eq_true_iff_eq. by rewrite !od_mem_keys, Hk.
Qed.

(** ** Grouping by key *)

Section Upsert.
Context {V : Type}.
Implicit Types (d : OD.odict V) (k : string).

Lemma od_get_upsert k k' (init : V) f d :
  OD.get k' (OD.upsert k init f d)
  = if String.eqb k' k then Some (f (default init (OD.get k d))) else OD.get k' d.
Proof.
  unfold OD.upsert. rewrite od_get_alter.
  destruct (String.eqb_spec k' k) as [->|Hne].
  - unfold OD.mem. destruct (OD.get k d) as [v|] eqn:Hget; cbn.
    + by rewrite Hget.
    + by rewrite od_get_set, String.eqb_refl.
  - destruct (OD.mem k d); cbn; [done|].
    rewrite od_get_set. by destruct (String.eqb_spec k' k).
Qed.

Lemma od_keys_upsert k (init : V) f d :
  OD.keys (OD.upsert k init f d)
  = if OD.mem k d then OD.keys d else OD.keys d ++ [k].
Proof.
  unfold OD.upsert. rewrite od_keys_alter.
  destruct (OD.mem k d) eqn:Hmem; cbn [negb]; [done|].
  by rewrite od_keys_set, Hmem.
Qed.

Lemma od_keys_upsert_nodup k (init : V) f d :
  NoDup (OD.keys d) → NoDup (OD.keys (OD.upsert k init f d)).
Proof.
  intros Hnd. rewrite od_keys_upsert.
  destruct (OD.mem k d) eqn:Hmem; [done|].
  apply NoDup_app. split; [done|]. split; [|apply NoDup_singleton].
  intros x Hx ->%list_elem_of_singleton.
  apply od_mem_keys in Hx. congruence.
Qed.

End Upsert.

Lemma od_keys_upsert_congr {V W} (k : string) (i : V) f (i' : W) f'
    (d : OD.odict V) (d' : OD.odict W) :
  OD.keys d = OD.keys d' →
  OD.keys (OD.upsert k i f d) = OD.keys (OD.upsert k i' f' d').
Proof.
  intros Hk. rewrite !od_keys_upsert, (od_mem_same_keys k d d' Hk), Hk. done.
Qed.

Section Grouping.
Context {X V : Type} (key : X → string) (init : X → V) (upd : X → V → V).

Local Abbreviation group_step :=
  (λ (d : OD.odict V) (x : X), OD.upsert (key x) (init x) (upd x) d).

(** The value under [k] is built from the items of key [k] alone, in
    their order. *)
Lemma group_get (k : string) (xs : list X) : ∀ d,
  OD.get k (fold_left group_step xs d)
  = fold_left (λ o x, Some (upd x (default (init x) o)))
              (List.filter (λ x, String.eqb (key x) k) xs) (OD.get k d).
Proof.
  induction xs as [|x xs IH]; intros d; cbn [fold_left List.filter]; [done|].
  rewrite IH, od_get_upsert.
  destruct (String.eqb_spec (key x) k) as [<-|Hne].
  - by rewrite String.eqb_refl.
  - by destruct (String.eqb_spec k (key x)) as [->|].
Qed.

Lemma group_keys_nodup (xs : list X) : ∀ d,
  NoDup (OD.keys d) → NoDup (OD.keys (fold_left group_step xs d)).
Proof.
  induction xs as [|x xs IH]; intros d Hnd; cbn [fold_left]; [done|].
  apply IH. by apply od_keys_upsert_nodup.
Qed.

Lemma group_keys (k : string) (xs : list X) : ∀ d,
  k ∈ OD.keys (fold_left group_step xs d)
  ↔ k ∈ OD.keys d ∨ ∃ x, x ∈ xs ∧ key x = k.
Proof.
  induction xs as [|x xs IH]; intros d; cbn [fold_left].
  { split; [auto|]. intros [?|(x & ?%elem_of_nil & _)]; done. }
  rewrite IH, od_keys_upsert.
  setoid_rewrite elem_of_cons.
  destruct (OD.mem (key x) d) eqn:Hmem.
  - apply od_mem_keys in Hmem. split.
    + intros [?|(y & ? & ?)]; [auto|]. right. exists y. auto.
    + intros [?|(y & [-> | ?] & <-)]; [auto|auto|]. right. by exists y.
  - rewrite elem_of_app, list_elem_of_singleton. split.
    + intros [[? | ->]|(y & ? & ?)]; [auto| |].
      * right. exists x. auto.
      * right. exists y. auto.
    + intros [?|(y & [-> | ?] & <-)]; [auto|auto|]. right. by exists y.
Qed.

End Grouping.



(** ** Trend aggregation *)

Lemma fold_left_fmap {A B C} (f : A → B → A) (g : C → B) (l : list C) : ∀ a,
  fold_left f (map g l) a = fold_left (λ a x, f a (g x)) l a.
Proof. induction l as [|x l IH]; intros a; cbn; [done|]. apply IH. Qed.

Lemma count_topic_upsert (s : Q) tc sbt (T : string) :
  OD.keys tc = OD.keys sbt →
  count_topic s (tc, sbt) T
  = (OD.upsert T 0 S tc, OD.upsert T [] (λ scores, scores ++ [s]) sbt).
Proof.
  intros Hk. unfold count_topic, OD.upsert.
  rewrite <- (od_mem_same_keys T tc sbt Hk). by destruct (OD.mem T tc).
Qed.

(** The two dictionaries of [get_trends] are two groupings of the topic
    occurrences. *)
Lemma count_occurrences (pairs : list (string * Q)) : ∀ tc sbt,
  OD.keys tc = OD.keys sbt →
  fold_left (λ st p, count_topic (snd p) st (fst p)) pairs (tc, sbt)
  = (fold_left (λ d p, OD.upsert (fst p) 0 S d) pairs tc,
     fold_left (λ d p, OD.upsert (fst p) [] (λ scores, scores ++ [snd p]) d)
               pairs sbt).
Proof.
  induction pairs as [|p pairs IH]; intros tc sbt Hk; cbn [fold_left]; [done|].
  rewrite count_topic_upsert by done. apply IH. by apply od_keys_upsert_congr.
Qed.

Lemma count_utterances_occurrences (utterances : list document) : ∀ st,
  fold_left count_utterance utterances st
  = fold_left (λ st p, count_topic (snd p) st (fst p))
              (Spec.occurrences utterances) st.
Proof.
  induction utterances as [|u utterances IH]; intros st; [done|].
  unfold Spec.occurrences. cbn [fold_left flat_map].
  rewrite fold_left_app, fold_left_fmap. cbn [fst snd]. apply IH.
Qed.







(** One trend per topic that occurs, up to ten. *)
Lemma trends_of_length (utterances : list document) :
  ∃ topics,
    NoDup topics
    ∧ (∀ T, T ∈ topics ↔ ∃ u, u ∈ utterances ∧ T ∈ Spec.topics_of u)
    ∧ length (trends_of utterances) = 10 `min` length topics.
Proof.
  unfold trends_of.
  rewrite count_utterances_occurrences, count_occurrences by done.
  set (pairs := Spec.occurrences utterances).
  set (tc := fold_left (λ d (p : string * Q), OD.upsert (fst p) 0 S d) pairs []).
  exists (OD.keys tc). split; [|split].
  - by apply group_keys_nodup, NoDup_nil.
  - intros T. subst tc. rewrite (group_keys fst (λ _, 0) (λ _, S)).
    split.
    + intros [?%elem_of_nil|([T' s] & Hin & <-)]; [done|].
      apply list_elem_of_In, in_flat_map in Hin as (u & Hu & Hts).
      apply in_map_iff in Hts as (T'' & [= <- <-] & HT).
      exists u. by rewrite <- !list_elem_of_In in *.
    + intros (u & Hu & HT). right. exists (T, Spec.sentiment_of u).
      split; [|done]. apply list_elem_of_In, in_flat_map. exists u.
      split; [by apply list_elem_of_In|].
      apply in_map_iff. exists T. split; [done|]. by apply list_elem_of_In.
  - rewrite length_take. f_equal.
    rewrite (Permutation_length (sort_desc_perm _ _)).
    unfold OD.keys. by rewrite !length_map.
Qed.






(** ** Speaker aggregation *)

Lemma str_take_length (n : nat) : ∀ s,
  n ≤ String.length s → String.length (PyStr.take n s) = n.
Proof.
  induction n as [|n IH]; intros s Hn; [done|].
  destruct s as [|c s]; cbn in *; [lia|]. rewrite IH; [done|lia].
Qed.

(** The quote of an utterance: the first 200 characters and an ellipsis
    for longer content, the content itself otherwise. *)
Lemma quote_text_spec (content : string) :
  (200 < String.length content →
   quote_text content = PyStr.take 200 content +:+ "..."
   ∧ String.length (PyStr.take 200 content) = 200)
  ∧ (String.length content ≤ 200 → quote_text content = content).
Proof.
  unfold quote_text. split.
  - intros Hlong. destruct (Nat.ltb_spec 200 (String.length content)); [|lia].
    split; [done|]. apply str_take_length. lia.
  - intros Hshort. by destruct (Nat.ltb_spec 200 (String.length content)); [lia|].
Qed.

(** The entry of a speaker after the utterances [said], in order. *)
Lemma record_utterances (first : document) (said : list document) :
  let e := fold_left (λ e u, record_utterance u e) said
             (new_speaker (speaker_of first) first) in
  se_speaker_id e = speaker_id_of (speaker_of first)
  ∧ se_display_name e = speaker_of first
  ∧ se_mentions e = length said
  ∧ se_sentiment_scores e = map Spec.sentiment_of said
  ∧ se_quotes e = map exemplar_quote (take 3 said).
Proof.
  induction said as [|u said IH] using rev_ind; [done|].
  rewrite fold_left_app. cbn [fold_left]. cbn zeta in *.
  set (e := fold_left _ said _) in *.
  destruct IH as (Hid & Hname & Hcount & Hscores & Hquotes).
  unfold record_utterance.
  cbn [se_speaker_id se_display_name se_mentions se_sentiment_scores se_quotes].
  rewrite Hquotes, Hscores, Hcount, length_map, length_take, length_app, map_app.
  repeat split; try done.
  destruct (Nat.ltb_spec (3 `min` length said) 3) as [Hlt|Hge].
  - rewrite take_ge by lia. rewrite take_ge; [by rewrite map_app|].
    rewrite length_app. cbn. lia.
  - by rewrite take_app_le by lia.
Qed.

Lemma speaker_data_get (speaker : string) (utterances : list document) :
  OD.get speaker (fold_left speaker_step utterances [])
  = match Spec.said_by speaker utterances with
    | [] => None
    | first :: said =>
        Some (fold_left (λ e u, record_utterance u e) (first :: said)
                        (new_speaker (speaker_of first) first))
    end.
Proof.
  change (fold_left speaker_step utterances [])
    with (fold_left (λ d u, OD.upsert (speaker_of u)
                               (new_speaker (speaker_of u) u)
                               (record_utterance u) d) utterances []).
  rewrite (group_get speaker_of (λ u, new_speaker (speaker_of u) u) record_utterance).
  unfold Spec.said_by. cbn [OD.get].
  destruct (List.filter _ utterances) as [|first said]; [done|].
  cbn [fold_left default]. generalize (record_utterance first
                                        (new_speaker (speaker_of first) first)).
  induction said as [|u said IH]; intros e; [done|]. cbn [fold_left default]. apply IH.
Qed.

Lemma said_by_head (speaker : string) (utterances : list document) first said :
  Spec.said_by speaker utterances = first :: said → speaker_of first = speaker.
Proof.
  intros Hsaid. assert (In first (Spec.said_by speaker utterances)) as Hin.
  { rewrite Hsaid. by left. }
  apply filter_In in Hin as [_ Heq]. by apply String.eqb_eq.
Qed.

(** Every dictionary entry describes the utterances of its key. *)
Lemma speaker_data_entry (utterances : list document) speaker e :
  (speaker, e) ∈ fold_left speaker_step utterances [] →
  let said := Spec.said_by speaker utterances in
  said ≠ []
  ∧ se_speaker_id e = speaker_id_of speaker
  ∧ se_display_name e = speaker
  ∧ se_mentions e = length said
  ∧ se_sentiment_scores e = map Spec.sentiment_of said
  ∧ se_quotes e = map exemplar_quote (take 3 said).
Proof.
  intros Hin said. apply od_get_elem in Hin.
  2: { change (fold_left speaker_step utterances [])
         with (fold_left (λ d u, OD.upsert (speaker_of u)
                                    (new_speaker (speaker_of u) u)
                                    (record_utterance u) d) utterances []).
       by apply group_keys_nodup, NoDup_nil. }
  rewrite speaker_data_get in Hin. subst said.
  destruct (Spec.said_by speaker utterances) as [|first said] eqn:Hsaid; [done|].
  injection Hin as <-.
  pose proof (said_by_head _ _ _ _ Hsaid) as Hfirst.
  destruct (record_utterances first (first :: said)) as (? & ? & ? & ? & ?).
  rewrite Hfirst in *. by repeat split.
Qed.

Lemma analyze_speakers_elem (utterances : list document) (r : speaker_result) :
  r ∈ analyze_speakers utterances
  ↔ ∃ speaker e, (speaker, e) ∈ fold_left speaker_step utterances []
                 ∧ r = speaker_summary (speaker, e).
Proof.
  unfold analyze_speakers. rewrite sort_desc_perm, list_elem_of_fmap.
  split.
  - intros ([speaker e] & -> & Hin). eauto.
  - intros (speaker & e & Hin & ->). by exists (speaker, e).
Qed.

(** C6. Per speaker, [exemplar_quotes] holds the quotes of the first three
    utterances of the speaker, in order, so at most three; a quote is the
    first 200 characters of the content followed by "..." when the content
    is longer than 200 characters and the content itself otherwise; the
    results are in descending order of [mentions], the number of utterances
    of the speaker; [speaker_id] is "spk-" followed by the display name in
    lower case with its spaces removed. *)
Theorem speakers_aggregation (utterances : list document) :
  let results := analyze_speakers utterances in
  (∀ i j a b, i ≤ j → results !! i = Some a → results !! j = Some b →
              sr_mentions b ≤ sr_mentions a)
  ∧ NoDup (map sr_display_name results)
  ∧ (∀ u, u ∈ utterances →
          ∃ r, r ∈ results ∧ sr_display_name r = speaker_of u)
  ∧ (∀ r, r ∈ results →
       let said := Spec.said_by (sr_display_name r) utterances in
       said ≠ []
       ∧ sr_speaker_id r
         = "spk-" +:+ PyStr.replace_char " " "" (PyStr.lower (sr_display_name r))
       ∧ sr_mentions r = length said
       ∧ length (sr_exemplar_quotes r) ≤ 3
       ∧ sr_exemplar_quotes r = map exemplar_quote (take 3 said))
  ∧ (∀ u, (200 < String.length (content_of u) →
           q_quote (exemplar_quote u) = PyStr.take 200 (content_of u) +:+ "..."
           ∧ String.length (PyStr.take 200 (content_of u)) = 200)
          ∧ (String.length (content_of u) ≤ 200 →
             q_quote (exemplar_quote u) = content_of u)).
Proof.
  intros results. subst results.
  assert (NoDup (OD.keys (fold_left speaker_step utterances []))) as Hnd.
  { change (fold_left speaker_step utterances [])
      with (fold_left (λ d u, OD.upsert (speaker_of u)
                                 (new_speaker (speaker_of u) u)
                                 (record_utterance u) d) utterances []).
    by apply group_keys_nodup, NoDup_nil. }
  split; [|split; [|split; [|split]]].
  - intros i j a b Hij Ha Hb.
    eapply (strongly_sorted_lookup sr_mentions); [apply sort_desc_sorted|done..].
  - unfold analyze_speakers. rewrite sort_desc_perm.
    rewrite map_map.
    erewrite map_ext_in; [exact Hnd|].
    intros [speaker e] Hin%list_elem_of_In. cbn.
    by apply speaker_data_entry in Hin as (_ & _ & -> & _).
  - intros u Hu.
    assert (speaker_of u ∈ OD.keys (fold_left speaker_step utterances [])) as Hkey.
    { change (fold_left speaker_step utterances [])
        with (fold_left (λ d u, OD.upsert (speaker_of u)
                                   (new_speaker (speaker_of u) u)
                                   (record_utterance u) d) utterances []).
      apply group_keys. right. by exists u. }
    apply list_elem_of_fmap in Hkey as ([speaker e] & Hs & Hin). cbn in Hs.
    exists (speaker_summary (speaker, e)). split.
    + apply analyze_speakers_elem. eauto.
    + cbn. apply speaker_data_entry in Hin as (_ & _ & -> & _). done.
  - intros r (speaker & e & Hin & ->)%analyze_speakers_elem.
    apply speaker_data_entry in Hin as (Hne & Hid & Hname & Hcount & _ & Hquotes).
    cbn. rewrite Hname, Hid, Hcount, Hquotes, length_map, length_take.
    repeat split; try done. lia.
  - intros u. apply quote_text_spec.
Qed.

Lemma speakers_aggregation_witness :
  q_quote (exemplar_quote (Sample.doc "B" (Sample.filler 260) [] (- (3 # 10))))
  = PyStr.take 200 (Sample.filler 260) +:+ "...".
Proof.
  apply (speakers_aggregation []). vm_compute. lia.
Defined.

(** ** Concrete runs *)

Example sentiment_above_range :
  analyze_sentiment Sample.py_float
    (Sample.constant_client (ChatContent " 1.7 ") (EmbedData [])) 0 (VStr "superb")
  = PyFin 1.
Proof. reflexivity. Qed.

Example sentiment_not_a_number :
  analyze_sentiment Sample.py_float
    (Sample.constant_client (ChatContent "nan") (EmbedData [])) 0 (VStr "hm")
  = PyFin 1.
Proof. reflexivity. Qed.

Example sentiment_negative_phrase :
  analyze_sentiment Sample.py_float
    (Sample.constant_client (ChatContent "Somewhat NEGATIVE.") (EmbedData []))
    0 (VStr "late again")
  = PyFin (- (1 # 2)).
Proof. reflexivity. Qed.

Example sentiment_service_down :
  analyze_sentiment Sample.py_float Sample.failing_client 0 (VStr "anything")
  = PyFin 0.
Proof. reflexivity. Qed.

(** The keyword "rPET" is compared with lowered text and never matches. *)
Example rpet_never_matches :
  generate_topics
    (Sample.constant_client (ChatRaised "unused") (EmbedData [[1 # 2]%Q]))
    0 ["We move to rPET next year"]
  = ["general_discussion"]
  ∧ Spec.keyword_rule ["We move to rPET next year"] = ["packaging"].
Proof. by vm_compute. Qed.

Example fallback_parses_cue :
  map (λ u, (ru_speaker u, ru_content u, ru_duration u))
      (parse_vtt Sample.py_int (Raise "Invalid format")
         ("00:00:01.000 --> 00:00:06.500" +:+ String "010" "Ana: Welcome everyone"))
  = [("Ana", "Welcome everyone", (6 + 500 / 1000 - (1 + 0 / 1000))%Q)].
Proof. by vm_compute. Qed.

(** Speakers "A" and "B" with contents of 40 and 260 characters. *)
Example two_speakers :
  map (λ r, (sr_display_name r, sr_speaker_id r, sr_mentions r,
             map (λ q, String.length (q_quote q)) (sr_exemplar_quotes r)))
      (analyze_speakers [Sample.doc "A" (Sample.filler 40) [] (4 # 5);
                         Sample.doc "B" (Sample.filler 260) [] (- (3 # 10))])
  = [("A", "spk-a", 1, [40]); ("B", "spk-b", 1, [203])].
Proof. by vm_compute. Qed.

(** * Further properties of the code *)

(** ** Filter predicates *)

Lemma elem_of_opt_clause {A} (mk : A → clause) (o : option A) (c : clause) :
  c ∈ opt_clause mk o ↔ ∃ a, o = Some a ∧ c = mk a.
Proof.
  destruct o as [a|]; cbn.
  - rewrite list_elem_of_singleton. split.
    + intros ->. by exists a.
    + by intros (a' & [= <-] & ->).
  - split; [by intros ?%elem_of_nil|]. by intros (a & ? & _).
Qed.

Ltac clause_iff :=
  let H := fresh "H" in
  let a := fresh "a" in
  let Ha := fresh "Ha" in
  let Heq := fresh "Heq" in
  intros; rewrite !elem_of_app, !elem_of_opt_clause;
  split;
  [ intros H; repeat (destruct H as [H|H]);
    destruct H as (a & Ha & Heq); try discriminate Heq;
    injection Heq as ->; exact Ha
  | intros ->; eauto 12 ].

(** Each filter that is set gives exactly its own conjunct, and a filter
    that is not set gives none. *)
Theorem filter_parts_clauses (f : filters) :
  (∀ d, MeetingDateGe d ∈ filter_parts f ↔ f_from_date f = Some d)
  ∧ (∀ d, MeetingDateLe d ∈ filter_parts f ↔ f_to_date f = Some d)
  ∧ (∀ s, SpeakerEq s ∈ filter_parts f ↔ f_speaker f = Some s)
  ∧ (∀ s, DepartmentEq s ∈ filter_parts f ↔ f_department f = Some s)
  ∧ (∀ s, RegionEq s ∈ filter_parts f ↔ f_region f = Some s)
  ∧ (∀ ts, TopicsAnyOf ts ∈ filter_parts f ↔ f_topics f = Some ts)
  ∧ (∀ x, SentimentGe x ∈ filter_parts f ↔ f_sentiment_min f = Some x)
  ∧ (∀ x, SentimentLe x ∈ filter_parts f ↔ f_sentiment_max f = Some x)
  ∧ length (filter_parts f)
    = Nat.b2n (has_key (f_from_date f)) + Nat.b2n (has_key (f_to_date f))
      + Nat.b2n (has_key (f_speaker f)) + Nat.b2n (has_key (f_department f))
      + Nat.b2n (has_key (f_region f)) + Nat.b2n (has_key (f_topics f))
      + Nat.b2n (has_key (f_sentiment_min f))
      + Nat.b2n (has_key (f_sentiment_max f)).
Proof.
  unfold filter_parts.
  do 8 (split; [clause_iff|]).
  by destruct f as [[] [] [] [] [] [] [] []].
Qed.

(** With no filter set, and with an empty search text, the index is asked
    exactly what it is asked when no filter dictionary and no search text
    are given; a filter that is set always reaches the index. *)
Theorem empty_filters_are_no_filters (backend : Backend)
    (f : filters) (top skip : Z) :
  (filters_nonempty f = false →
   build_search_params (Some "") (Some f) top skip
   = build_search_params None None top skip
   ∧ ∀ search_text,
       search_utterances backend search_text (Some f) top skip
       = search_utterances backend search_text None top skip)
  ∧ (filters_nonempty f = true →
     ∀ search_text,
       sp_filter (build_search_params search_text (Some f) top skip)
       = Some (filter_parts f)
       ∧ filter_parts f ≠ []).
Proof.
  split.
  - intros Hnone. unfold search_utterances, build_search_params. by rewrite Hnone.
  - intros Hsome search_text. unfold build_search_params. cbn [sp_filter].
    rewrite Hsome.
    assert (filter_parts f ≠ []) as Hne.
    { unfold filter_parts, filters_nonempty in *.
      by destruct f as [[] [] [] [] [] [] [] []]. }
    split; [|done]. by destruct (filter_parts f).
Qed.

Lemma empty_filters_are_no_filters_witness :
  search_utterances Sample.storage_down (Some "budget") (Some no_filters) 50 0
  = search_utterances Sample.storage_down (Some "budget") None 50 0.
Proof.
  by apply (empty_filters_are_no_filters Sample.storage_down no_filters 50 0).
Defined.

(** ** The function-key gate and the query-string filters *)

(** The trends, speakers and chat endpoints answer 401 exactly to requests
    that are neither local nor carry a function key, with a fixed body and
    without consulting storage; the utterances endpoint has no such gate
    and never answers 401. *)
Theorem function_key_gate
    (py_float : string → option pyfloat) (py_int : string → option Z)
    (json_loads : string → option json) (py_str : json → string)
    (subscript_error items_error : json → string) (deployment_name : string)
    (client_init : result unit) (client : Collaborator)
    (backend : Backend) (req : HttpRequest) :
  let gate := negb (is_localhost req) && negb (has_function_key req) in
  let chat_response :=
    chat_main json_loads py_str subscript_error items_error deployment_name
              client_init client backend req in
  (status_code (insights_trends_main py_float backend req) = 401 ↔ gate = true)
  ∧ (status_code (insights_speakers_main py_float backend req) = 401 ↔ gate = true)
  ∧ (status_code chat_response = 401 ↔ gate = true)
  ∧ (gate = true →
     insights_trends_main py_float backend req = key_required
     ∧ insights_speakers_main py_float backend req = key_required
     ∧ chat_response = key_required)
  ∧ (status_code (insights_utterances_main py_float py_int backend req) = 200
     ∨ status_code (insights_utterances_main py_float py_int backend req) = 500).
Proof.
  intros gate chat_response. subst gate chat_response.
  unfold insights_trends_main, insights_speakers_main, chat_main,
    insights_utterances_main.
  destruct (utterances_page py_int req) as [top skip].
  destruct (negb (is_localhost req) && negb (has_function_key req)).
  - repeat split; try done; destruct (storage_init backend) as [[]|]; auto.
  - destruct (storage_init backend) as [[]|e]; cbn;
      (repeat split; try done; auto);
      destruct (req_json req) as [[question context|]|]; cbn; try done;
      destruct (String.eqb (default "" question) ""); cbn; try done;
      destruct client_init as [[]|]; cbn; done.
Qed.

(** A sentiment bound that does not parse as a number is treated as if the
    parameter had not been sent: the filters and the responses of the three
    insight endpoints are those of the request without it. *)
Theorem unparsable_sentiment_bound_is_dropped
    (py_float : string → option pyfloat) (py_int : string → option Z)
    (backend : Backend) (req : HttpRequest) (name s : string) :
  name = "sentiment_min" ∨ name = "sentiment_max" →
  req_params req !! name = Some s →
  py_float s = None →
  filters_of_params py_float (req_params req)
  = filters_of_params py_float (req_params (without_param name req))
  ∧ insights_utterances_main py_float py_int backend req
    = insights_utterances_main py_float py_int backend (without_param name req)
  ∧ insights_trends_main py_float backend req
    = insights_trends_main py_float backend (without_param name req)
  ∧ insights_speakers_main py_float backend req
    = insights_speakers_main py_float backend (without_param name req).
Proof.
  intros Hname Hlookup Hfail.
  assert (filters_of_params py_float (req_params req)
          = filters_of_params py_float (req_params (without_param name req))) as Hf.
  { unfold filters_of_params, without_param. cbn [req_params].
    destruct Hname as [-> | ->];
      rewrite ?lookup_delete_eq, ?lookup_delete_ne by done;
      rewrite ?Hlookup; cbn; by rewrite ?Hfail. }
  assert (∀ k, k ≠ name →
               req_params (without_param name req) !! k = req_params req !! k) as Hother.
  { intros k Hk. unfold without_param. cbn. by rewrite lookup_delete_ne. }
  assert (has_function_key (without_param name req) = has_function_key req) as Hkey.
  { unfold has_function_key. rewrite Hother; [done|].
    by destruct Hname as [-> | ->]. }
  split; [exact Hf|].
  unfold insights_utterances_main, insights_trends_main, insights_speakers_main,
    utterances_page, pagination, int_param.
  rewrite <- Hf, Hkey.
  rewrite !Hother by (by destruct Hname as [-> | ->]).
  done.
Qed.

Lemma unparsable_sentiment_bound_is_dropped_witness :
  insights_trends_main Sample.py_float Sample.storage_down
    (Sample.request [("sentiment_min", "high"); ("code", "k")] [])
  = insights_trends_main Sample.py_float Sample.storage_down
      (without_param "sentiment_min"
         (Sample.request [("sentiment_min", "high"); ("code", "k")] [])).
Proof.
  apply (unparsable_sentiment_bound_is_dropped Sample.py_float Sample.py_int
           Sample.storage_down _ "sentiment_min" "high"); [by left|done|done].
Defined.

(** ** Chat: parameter sanitation and query outcomes *)

Lemma od_set_elem {V} (k k0 : string) (v v0 : V) (d : OD.odict V) :
  (k, v) ∈ OD.set k0 v0 d → (k = k0 ∧ v = v0) ∨ (k, v) ∈ d.
Proof.
  induction d as [|[k1 v1] d IH]; cbn.
  { intros [= -> ->]%list_elem_of_singleton. by left. }
  destruct (String.eqb_spec k0 k1) as [->|Hne].
  - intros [[= -> ->]|Hin]%elem_of_cons; [by left|]. right. by right.
  - intros [[= -> ->]|Hin]%elem_of_cons; [right; by left|].
    destruct (IH Hin) as [?|?]; [by left|]. right. by right.
Qed.

(** What [validate_parameters] keeps.  The parameters must be a JSON
    object, anything else raises.  Every kept entry comes from an entry of
    the object with the same key whose value is not null: a string is kept
    trimmed, and only when it is neither "null" nor blank; a list is kept
    only under the key [topics] and when it is not empty, as the list of
    the texts of its non-blank truthy items; any other value is kept as its
    text.  So every kept value is a string or, for [topics], a list of
    strings. *)
Theorem validate_parameters_shape
    (py_str : json → string) (items_error : json → string) (parameters : json) :
  match validate_parameters py_str items_error parameters with
  | Raise e => e = items_error parameters ∧ ∀ members, parameters ≠ JObj members
  | Ok validated =>
      ∃ members, parameters = JObj members
        ∧ ∀ key v, (key, v) ∈ validated →
            ((∃ s, v = JStr s)
             ∨ (key = "topics" ∧ ∃ texts, v = JArr (map JStr texts)))
            ∧ ∃ raw, (key, raw) ∈ members ∧ kept_value py_str key raw v
  end.
Proof.
  destruct parameters as [| | | | |items|members]; cbn; try (split; [done|]; done).
  exists members. split; [done|].
  assert (∀ (done_ todo : list (string * json)) acc,
            (∀ key v, (key, v) ∈ acc →
               ∃ raw, (key, raw) ∈ done_ ∧ kept_value py_str key raw v) →
            ∀ key v, (key, v) ∈ fold_left (validate_parameter py_str) todo acc →
               ∃ raw, (key, raw) ∈ done_ ++ todo ∧ kept_value py_str key raw v)
    as Hfold.
  { intros done_ todo. revert done_.
    induction todo as [|[k0 raw0] todo IH]; intros done_ acc Hacc key v Hin.
    { rewrite app_nil_r. by apply Hacc. }
    cbn [fold_left] in Hin.
    replace (done_ ++ (k0, raw0) :: todo) with ((done_ ++ [(k0, raw0)]) ++ todo)
      by (by rewrite <- app_assoc).
    eapply IH; [|exact Hin]. clear Hin key v.
    intros key v Hin.
    assert ((k0, raw0) ∈ done_ ++ [(k0, raw0)]) as Hnew.
    { apply elem_of_app. right. by apply list_elem_of_singleton. }
    assert ((key, v) ∈ acc →
            ∃ raw, (key, raw) ∈ done_ ++ [(k0, raw0)] ∧ kept_value py_str key raw v)
      as Hold.
    { intros Hin'. destruct (Hacc key v Hin') as (raw & Hraw & Hshape).
      exists raw. split; [|done]. apply elem_of_app. by left. }
    unfold validate_parameter in Hin.
    destruct raw0 as [|b|z|x|s|items|ms]; try (by apply Hold).
    - apply od_set_elem in Hin as [[-> ->]|Hin]; [|by apply Hold].
      by exists (JBool b).
    - apply od_set_elem in Hin as [[-> ->]|Hin]; [|by apply Hold].
      by exists (JInt z).
    - apply od_set_elem in Hin as [[-> ->]|Hin]; [|by apply Hold].
      by exists (JNum x).
    - destruct (String.eqb_spec s "null") as [->|Hnull]; [by apply Hold|].
      destruct (String.eqb_spec s "") as [->|Hempty]; [by apply Hold|].
      cbn [orb] in Hin.
      destruct (String.eqb_spec (PyStr.strip s) "") as [Hblank|Hblank];
        [by apply Hold|].
      apply od_set_elem in Hin as [[-> ->]|Hin]; [|by apply Hold].
      by exists (JStr s).
    - destruct (String.eqb_spec k0 "topics") as [->|Hk]; [|by apply Hold].
      cbn [andb] in Hin.
      destruct items as [|i items]; [by apply Hold|].
      cbn [truthy] in Hin.
      apply od_set_elem in Hin as [[-> ->]|Hin]; [|by apply Hold].
      by exists (JArr (i :: items)).
    - apply od_set_elem in Hin as [[-> ->]|Hin]; [|by apply Hold].
      by exists (JObj ms). }
  intros key v Hin.
  destruct (Hfold [] members []) with (key := key) (v := v)
    as (raw & Hraw & Hkept); [by intros ? ? ?%elem_of_nil|done|].
  split; [|by exists raw].
  destruct raw as [|b|z|x|s|items|ms]; unfold kept_value in Hkept;
    [destruct Hkept|..]; try (left; by eexists).
  - destruct Hkept as (_ & _ & ->). left. by eexists.
  - destruct Hkept as (-> & _ & ->). right. split; [done|].
    exists (map py_str
              (List.filter
                 (λ i, truthy i && negb (String.eqb (PyStr.strip (py_str i)) ""))
                 items)).
    by rewrite map_map.
Qed.

Section ChatOutcomes.

Variable json_loads : string → option json.
Variable py_str : json → string.
Variable subscript_error items_error : json → string.
Variable deployment_name : string.
Variable client : Collaborator.
Variable backend : Backend.

Local Abbreviation run :=
  (process_query json_loads py_str subscript_error items_error deployment_name
                 client backend).
Local Abbreviation analysis_of :=
  (extract_intent_and_parameters json_loads client).

(** What a query returns once the analysis has an intent and a parameter
    object. *)
Lemma process_query_answered question context intent parameters :
  subscript subscript_error (analysis_of question) "intent" = Ok intent →
  subscript subscript_error (analysis_of question) "parameters" = Ok (JObj parameters) →
  run question context
  = {| cr_answer :=
         generate_answer deployment_name client question intent
           (fst (gather backend intent)) context;
       cr_data := fst (gather backend intent);
       cr_sources := snd (gather backend intent);
       cr_confidence :=
         if has_data intent (fst (gather backend intent)) then 85 # 100 else 3 # 10;
       cr_intent := Some intent;
       cr_error := None |}.
Proof.
  intros Hi Hp. unfold process_query. rewrite Hi, Hp. cbn.
  by destruct (gather backend intent) as [data sources].
Qed.

Lemma analysis_default question :
  (∃ e, chat client 0 (IntentPrompt question) = ChatRaised e)
  ∨ (∃ text, chat client 0 (IntentPrompt question) = ChatContent text
             ∧ json_loads text = None) →
  analysis_of question = default_analysis.
Proof.
  unfold extract_intent_and_parameters.
  by intros [[e ->]|(text & -> & ->)].
Qed.

End ChatOutcomes.

(** A query never raises, and ends in one of two ways: answered, with an
    intent, no [error] and confidence 0.85 or 0.3; or failed, with an
    [error], no intent, confidence 0.0, empty data and no sources. *)
Theorem process_query_outcome
    (json_loads : string → option json) (py_str : json → string)
    (subscript_error items_error : json → string) (deployment_name : string)
    (client : Collaborator) (backend : Backend) (question context : string) :
  let r := process_query json_loads py_str subscript_error items_error
             deployment_name client backend question context in
  (cr_error r = None ∧ is_Some (cr_intent r)
   ∧ (cr_confidence r = (85 # 100)%Q ∨ cr_confidence r = (3 # 10)%Q))
  ∨ (is_Some (cr_error r) ∧ cr_intent r = None
     ∧ cr_confidence r = 0%Q ∧ cr_data r = JObj [] ∧ cr_sources r = []).
Proof.
  unfold process_query.
  destruct (subscript _ _ "intent") as [intent|e]; cbn.
  2: { right. unfold query_failure. by case_match. }
  destruct (subscript _ _ "parameters") as [raw|e]; cbn.
  2: { right. unfold query_failure. by case_match. }
  destruct (validate_parameters py_str items_error raw) as [validated|e]; cbn.
  2: { right. unfold query_failure. by case_match. }
  left. destruct (gather backend intent) as [data sources]. cbn.
  split; [done|]. split; [done|]. destruct (has_data intent data); auto.
Qed.

(** The parameters extracted from the question have no effect on the
    answer: two analyses with the same intent and any two parameter objects
    lead to the same result. *)
Theorem process_query_ignores_parameters
    (json_loads1 json_loads2 : string → option json) (py_str : json → string)
    (subscript_error items_error : json → string) (deployment_name : string)
    (client : Collaborator) (backend : Backend) (question context : string)
    (intent : json) (parameters1 parameters2 : list (string * json)) :
  subscript subscript_error
    (extract_intent_and_parameters json_loads1 client question) "intent" = Ok intent →
  subscript subscript_error
    (extract_intent_and_parameters json_loads1 client question) "parameters"
  = Ok (JObj parameters1) →
  subscript subscript_error
    (extract_intent_and_parameters json_loads2 client question) "intent" = Ok intent →
  subscript subscript_error
    (extract_intent_and_parameters json_loads2 client question) "parameters"
  = Ok (JObj parameters2) →
  process_query json_loads1 py_str subscript_error items_error deployment_name
    client backend question context
  = process_query json_loads2 py_str subscript_error items_error deployment_name
      client backend question context.
Proof.
  intros Hi1 Hp1 Hi2 Hp2.
  by rewrite (process_query_answered _ _ _ _ _ _ _ _ _ _ _ Hi1 Hp1),
             (process_query_answered _ _ _ _ _ _ _ _ _ _ _ Hi2 Hp2).
Qed.

(** When the intent cannot be extracted (the collaborator raises, or its
    answer is not JSON), the query is answered as an [utterances] query
    over the first 50 utterances of the unfiltered corpus: confidence 0.85
    when some are found and 0.3 when none is. *)
Theorem intent_extraction_failure_defaults
    (json_loads : string → option json) (py_str : json → string)
    (subscript_error items_error : json → string) (deployment_name : string)
    (client : Collaborator) (backend : Backend) (question context : string) :
  (∃ e, chat client 0 (IntentPrompt question) = ChatRaised e)
  ∨ (∃ text, chat client 0 (IntentPrompt question) = ChatContent text
             ∧ json_loads text = None) →
  let utterances := search_utterances backend None (Some no_filters) 50 0 in
  let r := process_query json_loads py_str subscript_error items_error
             deployment_name client backend question context in
  cr_intent r = Some (JStr "utterances")
  ∧ cr_error r = None
  ∧ cr_data r = JObj [("utterances", JArr (map document_to_json utterances))]
  ∧ cr_sources r
    = ["Found " +:+ count_text (length utterances) +:+ " relevant utterances"]
  ∧ cr_confidence r = match utterances with
                      | [] => (3 # 10)%Q
                      | _ => (85 # 100)%Q
                      end.
Proof.
  intros Hfail utterances r. subst r.
  pose proof (analysis_default json_loads client question Hfail) as Ha.
  rewrite (process_query_answered _ _ _ _ _ _ _ _ _ (JStr "utterances") []);
    [|by rewrite Ha..].
  cbn. fold utterances. repeat split. by destruct utterances.
Qed.

Lemma intent_extraction_failure_defaults_witness :
  cr_intent (process_query (λ _, None) (λ _, "") (λ _, "") (λ _, "") "gpt"
               Sample.failing_client (Sample.storage_with []) "What changed?" "")
  = Some (JStr "utterances").
Proof.
  apply intent_extraction_failure_defaults. left. by eexists.
Defined.

(** A [trends] query reports confidence 0.85 exactly when some retrieved
    utterance carries a topic, and 0.3 otherwise. *)
Theorem chat_trends_confidence
    (json_loads : string → option json) (py_str : json → string)
    (subscript_error items_error : json → string) (deployment_name : string)
    (client : Collaborator) (backend : Backend) (question context : string)
    (parameters : list (string * json)) :
  subscript subscript_error
    (extract_intent_and_parameters json_loads client question) "intent"
  = Ok (JStr "trends") →
  subscript subscript_error
    (extract_intent_and_parameters json_loads client question) "parameters"
  = Ok (JObj parameters) →
  let utterances := search_utterances backend None (Some no_filters) 1000 0 in
  let r := process_query json_loads py_str subscript_error items_error
             deployment_name client backend question context in
  (cr_confidence r = (85 # 100)%Q
   ↔ ∃ u T, u ∈ utterances ∧ T ∈ Spec.topics_of u)
  ∧ (cr_confidence r = (3 # 10)%Q
     ↔ ∀ u, u ∈ utterances → Spec.topics_of u = []).
Proof.
  intros Hi Hp utterances r. subst r.
  rewrite (process_query_answered _ _ _ _ _ _ _ _ _ _ _ Hi Hp).
  cbn [cr_confidence].
  assert (has_data (JStr "trends") (fst (gather backend (JStr "trends")))
          = match trends_of utterances with [] => false | _ => true end) as ->.
  { unfold has_data, gather, get_trends, trends_data_to_json. cbn.
    fold utterances. by destruct (trends_of utterances). }
  destruct (trends_of_length utterances) as (topics & _ & Htopics & Hlen).
  destruct (trends_of utterances) as [|t ts] eqn:Htrends.
  - assert (topics = []) as -> by (destruct topics; [done|cbn in Hlen; lia]).
    split.
    + split; [done|]. intros (u & T & Hu & HT).
      assert (T ∈ []) as ?%elem_of_nil; [|done]. apply Htopics. eauto.
    + split; [|done]. intros _ u Hu.
      destruct (Spec.topics_of u) as [|T ?] eqn:E; [done|].
      assert (T ∈ []) as ?%elem_of_nil; [|done].
      apply Htopics. exists u. split; [done|]. rewrite E. by left.
  - destruct topics as [|T topics]; [cbn in Hlen; lia|].
    destruct (proj1 (Htopics T)) as (u & Hu & HT); [by left|].
    split.
    + split; [|done]. intros _. eauto.
    + split; [done|]. intros Hnone. rewrite (Hnone u Hu) in HT.
      by apply elem_of_nil in HT.
Qed.

Lemma chat_trends_confidence_witness :
  cr_confidence
    (process_query (Sample.analysis_with "trends") (λ _, "") (λ _, "") (λ _, "")
       "gpt" Sample.answering_client (Sample.storage_with [])
       "What is trending?" "")
  = (3 # 10)%Q.
Proof.
  apply (chat_trends_confidence _ _ _ _ _ _ _ _ _ []); [done|done|].
  by intros u ?%elem_of_nil.
Defined.

Lemma process_query_ignores_parameters_witness :
  process_query (Sample.analysis_with "speakers") (λ _, "") (λ _, "") (λ _, "")
    "gpt" Sample.answering_client (Sample.storage_with []) "Who spoke?" ""
  = process_query (Fixture.analysis_about "speakers" "Marketing") (λ _, "")
      (λ _, "") (λ _, "") "gpt" Sample.answering_client (Sample.storage_with [])
      "Who spoke?" "".
Proof.
  by apply (process_query_ignores_parameters _ _ _ _ _ _ _ _ _ _
              (JStr "speakers") [] [("department", JStr "Marketing")]).
Defined.

(** ** Strings, continued *)

Lemma str_app_cons (c : ascii) (a b : string) :
  String c a +:+ b = String c (a +:+ b).
Proof. reflexivity. Qed.

Lemma str_app_nil_l (b : string) : "" +:+ b = b.
Proof. reflexivity. Qed.

Lemma str_app_nil_r (a : string) : a +:+ "" = a.
Proof. induction a as [|c a IH]; [done|]. by rewrite str_app_cons, IH. Qed.

Lemma str_app_assoc (a b c : string) : (a +:+ b) +:+ c = a +:+ (b +:+ c).
Proof. induction a as [|x a IH]; [done|]. by rewrite !str_app_cons, IH. Qed.

Lemma str_rev_app (a b : string) : String.rev_app a b = String.rev a +:+ b.
Proof.
  revert b. induction a as [|c a IH]; intros b; [done|].
  unfold String.rev. cbn [String.rev_app].
  rewrite (IH (String c b)), (IH (String c "")), str_app_assoc. done.
Qed.

Lemma str_rev_cons (c : ascii) (a : string) :
  String.rev (String c a) = String.rev a +:+ String c "".
Proof. unfold String.rev at 1. cbn [String.rev_app]. apply str_rev_app. Qed.

Lemma str_rev_append (a b : string) :
  String.rev (a +:+ b) = String.rev b +:+ String.rev a.
Proof.
  induction a as [|c a IH].
  - by rewrite str_app_nil_l, str_app_nil_r.
  - by rewrite str_app_cons, !str_rev_cons, IH, str_app_assoc.
Qed.

Lemma str_rev_involutive (a : string) : String.rev (String.rev a) = a.
Proof.
  induction a as [|c a IH]; [done|].
  by rewrite str_rev_cons, str_rev_append, IH.
Qed.

Lemma no_space_app (a b : string) :
  no_space (a +:+ b) = no_space a && no_space b.
Proof.
  induction a as [|c a IH]; [done|].
  rewrite str_app_cons. cbn [no_space]. by rewrite IH, andb_assoc.
Qed.

Lemma no_space_rev (a : string) : no_space (String.rev a) = no_space a.
Proof.
  induction a as [|c a IH]; [done|].
  rewrite str_rev_cons, no_space_app, IH. cbn [no_space].
  by rewrite andb_true_r, andb_comm.
Qed.

(** Text that neither starts nor ends with whitespace is left as it is by
    [strip]. *)
Lemma strip_no_space (a : string) : no_space a = true → PyStr.strip a = a.
Proof.
  intros Ha. unfold PyStr.strip, PyStr.rstrip.
  assert (∀ s, no_space s = true → PyStr.lstrip s = s) as Hl.
  { intros [|c s]; [done|]. cbn. by intros [->%negb_true_iff _]%andb_true_iff. }
  rewrite (Hl a Ha), Hl, str_rev_involutive; [done|]. by rewrite no_space_rev.
Qed.

Lemma strip_between (a mid b : string) :
  a ≠ "" → no_space a = true → b ≠ "" → no_space b = true →
  PyStr.strip (a +:+ mid +:+ b) = a +:+ mid +:+ b.
Proof.
  intros Ha Has Hb Hbs. unfold PyStr.strip, PyStr.rstrip.
  assert (PyStr.lstrip (a +:+ mid +:+ b) = a +:+ mid +:+ b) as ->.
  { destruct a as [|c a]; [done|]. rewrite str_app_cons. cbn in *.
    by apply andb_true_iff in Has as [->%negb_true_iff _]. }
  rewrite !str_rev_append, str_app_assoc.
  assert (PyStr.lstrip (String.rev b +:+ String.rev mid +:+ String.rev a)
          = String.rev b +:+ String.rev mid +:+ String.rev a) as ->.
  { pose proof (no_space_rev b) as Hrev. rewrite Hbs in Hrev.
    destruct (String.rev b) as [|c r] eqn:E.
    - apply (f_equal String.rev) in E. rewrite str_rev_involutive in E. done.
    - rewrite str_app_cons. cbn in *.
      by apply andb_true_iff in Hrev as [->%negb_true_iff _]. }
  by rewrite !str_rev_append, !str_rev_involutive, str_app_assoc.
Qed.

Lemma contains_app_l (needle a b : string) :
  PyStr.contains needle a = true → PyStr.contains needle (a +:+ b) = true.
Proof.
  assert (∀ n s, String.prefix n s = true → String.prefix n (s +:+ b) = true) as Hp.
  { induction n as [|x n IH]; intros s; [by destruct (s +:+ b)|].
    destruct s as [|y s]; [done|]. rewrite str_app_cons. cbn.
    destruct (ascii_dec x y); [apply IH|done]. }
  induction a as [|c a IH]; cbn [PyStr.contains].
  - rewrite orb_false_r. intros H. destruct needle; [|done].
    by destruct b.
  - rewrite str_app_cons. cbn [PyStr.contains].
    intros [H|H]%orb_true_iff; apply orb_true_iff.
    + left. by apply (Hp needle (String c a)).
    + right. by apply IH.
Qed.

Lemma contains_app_r (needle a b : string) :
  PyStr.contains needle b = true → PyStr.contains needle (a +:+ b) = true.
Proof.
  intros Hb. induction a as [|c a IH]; [done|].
  rewrite str_app_cons. cbn [PyStr.contains]. rewrite IH. apply orb_true_r.
Qed.

Lemma str_count_app (c : ascii) (a b : string) :
  str_count c (a +:+ b) = str_count c a + str_count c b.
Proof.
  induction a as [|x a IH]; [done|].
  rewrite str_app_cons. cbn [str_count]. rewrite IH. lia.
Qed.

Lemma split_length (sep : ascii) (s : string) :
  length (PyStr.split sep s) = S (str_count sep s).
Proof.
  induction s as [|c s IH]; [done|]. cbn [PyStr.split str_count].
  destruct (Ascii.eqb c sep); cbn [length]; [by rewrite IH|].
  destruct (PyStr.split sep s); cbn in *; lia.
Qed.

Lemma split_no_sep (sep : ascii) (a : string) :
  str_count sep a = 0 → PyStr.split sep a = [a].
Proof.
  induction a as [|c a IH]; [done|]. cbn [PyStr.split str_count].
  destruct (Ascii.eqb c sep); [done|]. intros H. by rewrite IH.
Qed.

Lemma split_app (sep : ascii) (a b : string) :
  str_count sep a = 0 →
  PyStr.split sep (a +:+ String sep b) = a :: PyStr.split sep b.
Proof.
  induction a as [|c a IH].
  - intros _. rewrite str_app_nil_l. cbn [PyStr.split]. by rewrite Ascii.eqb_refl.
  - rewrite str_app_cons. cbn [PyStr.split str_count].
    destruct (Ascii.eqb c sep); [done|]. intros H. by rewrite IH.
Qed.

(** ** Time conversion *)

(** [time_to_seconds] gives 0 for every string that does not have exactly
    two colons, and for an [HH:MM:SS.mmm] or [HH:MM:SS] string whose fields
    are integers it gives hours * 3600 + minutes * 60 + seconds +
    milliseconds / 1000; a field that is not an integer gives 0. *)
Theorem time_to_seconds_spec (py_int : string → option Z) :
  (∀ t, str_count ":" t ≠ 2 → time_to_seconds py_int t = 0%Q)
  ∧ (∀ h m s ms,
       str_count ":" h = 0 → str_count ":" m = 0 →
       str_count ":" s = 0 → str_count ":" ms = 0 →
       str_count "." s = 0 → str_count "." ms = 0 →
       time_to_seconds py_int (h +:+ ":" +:+ m +:+ ":" +:+ s +:+ "." +:+ ms)
       = match py_int h, py_int m, py_int s, py_int ms with
         | Some hours, Some minutes, Some seconds, Some milliseconds =>
             (inject_Z (hours * 3600 + minutes * 60 + seconds)
              + inject_Z milliseconds / 1000)%Q
         | _, _, _, _ => 0%Q
         end)
  ∧ (∀ h m s,
       str_count ":" h = 0 → str_count ":" m = 0 →
       str_count ":" s = 0 → str_count "." s = 0 →
       time_to_seconds py_int (h +:+ ":" +:+ m +:+ ":" +:+ s)
       = match py_int h, py_int m, py_int s with
         | Some hours, Some minutes, Some seconds =>
             inject_Z (hours * 3600 + minutes * 60 + seconds)
         | _, _, _ => 0%Q
         end).
Proof.
  split; [|split].
  - intros t Hcount. unfold time_to_seconds.
    pose proof (split_length ":" t) as Hlen.
    destruct (PyStr.split ":" t) as [|p0 [|p1 [|p2 [|p3 l]]]]; try done.
    cbn in Hlen. lia.
  - intros h m s ms Hh Hm Hs Hms Hds Hdms. unfold time_to_seconds.
    change (":" +:+ m +:+ ":" +:+ s +:+ "." +:+ ms)
      with (String ":" (m +:+ String ":" (s +:+ String "." ms))).
    rewrite (split_app ":" h) by done. rewrite (split_app ":" m) by done.
    rewrite (split_no_sep ":" (s +:+ String "." ms)).
    2: { rewrite str_count_app. cbn. lia. }
    rewrite (split_app "." s) by done. rewrite (split_no_sep "." ms) by done.
    by destruct (py_int h), (py_int m), (py_int s), (py_int ms).
  - intros h m s Hh Hm Hs Hds. unfold time_to_seconds.
    change (":" +:+ m +:+ ":" +:+ s) with (String ":" (m +:+ String ":" s)).
    rewrite (split_app ":" h) by done. rewrite (split_app ":" m) by done.
    rewrite (split_no_sep ":" s) by done. rewrite (split_no_sep "." s) by done.
    by destruct (py_int h), (py_int m), (py_int s).
Qed.

Lemma time_to_seconds_spec_witness :
  time_to_seconds Sample.py_int "01:30" = 0%Q.
Proof. apply time_to_seconds_spec. by vm_compute. Defined.

(** ** The caption parsers *)

Section VttProperties.

Variable py_int : string → option Z.

(** One pass of the fallback loop on a line and the lines after it. *)
Lemma parse_vtt_fallback_lines_cons (raw_line : string) (rest : list string) :
  parse_vtt_fallback_lines py_int (raw_line :: rest)
  = let line := PyStr.strip raw_line in
    if PyStr.contains "-->" line && PyStr.contains ":" line
    then match split_str " --> " line with
         | [start_time; end_time] =>
             match skip_blank_lines rest with
             | [] => []
             | l :: rest' =>
                 fallback_cue_utterance py_int (PyStr.strip start_time)
                   (PyStr.strip end_time) l
                 ++ parse_vtt_fallback_lines py_int rest'
             end
         | _ => parse_vtt_fallback_lines py_int rest
         end
    else parse_vtt_fallback_lines py_int rest.
Proof.
  cbn [parse_vtt_fallback_lines]. cbn zeta.
  destruct (PyStr.contains "-->" (PyStr.strip raw_line)
            && PyStr.contains ":" (PyStr.strip raw_line)); [|done].
  destruct (split_str " --> " (PyStr.strip raw_line))
    as [|start_time [|end_time [|x l]]]; try done.
  induction rest as [|l rest IH]; [done|].
  cbn [skip_blank_lines]. by destruct (String.eqb (PyStr.strip l) "").
Qed.

Lemma skip_blank_lines_length (lines : list string) :
  length (skip_blank_lines lines) ≤ length lines.
Proof.
  induction lines as [|l lines IH]; [done|]. cbn.
  destruct (String.eqb (PyStr.strip l) ""); cbn; lia.
Qed.

Lemma skip_blank_lines_head (lines : list string) c rest' :
  skip_blank_lines lines = c :: rest' → PyStr.strip c ≠ "".
Proof.
  induction lines as [|l lines IH]; [done|]. cbn.
  destruct (String.eqb_spec (PyStr.strip l) "") as [|Hne]; [done|].
  by intros [= <- <-].
Qed.

(** Induction along the passes of the fallback loop. *)
Lemma parse_vtt_fallback_lines_ind (P : list string → list raw_utterance → Prop) :
  P [] [] →
  (∀ l rest out, P rest out → P (l :: rest) out) →
  (∀ l rest, skip_blank_lines rest = [] → P (l :: rest) []) →
  (∀ l rest start_time end_time c rest' out,
     PyStr.contains "-->" (PyStr.strip l) = true →
     skip_blank_lines rest = c :: rest' →
     PyStr.strip c ≠ "" →
     P rest' out →
     P (l :: rest)
       (fallback_cue_utterance py_int start_time end_time c ++ out)) →
  ∀ lines, P lines (parse_vtt_fallback_lines py_int lines).
Proof.
  intros Hnil Hskip Hend Hcue lines.
  remember (length lines) as n eqn:Hn. revert lines Hn.
  induction n as [n IH] using lt_wf_ind. intros lines ->.
  destruct lines as [|l rest]; [exact Hnil|].
  assert (P rest (parse_vtt_fallback_lines py_int rest)) as Hrest.
  { apply (IH (length rest)); [cbn; lia|done]. }
  rewrite parse_vtt_fallback_lines_cons. cbn zeta.
  destruct (PyStr.contains "-->" (PyStr.strip l)) eqn:Harrow; [|by apply Hskip].
  destruct (PyStr.contains ":" (PyStr.strip l)); [|by apply Hskip].
  cbn [andb].
  destruct (split_str " --> " (PyStr.strip l))
    as [|start_time [|end_time [|x xs]]]; try (by apply Hskip).
  destruct (skip_blank_lines rest) as [|c rest'] eqn:E; [by apply Hend|].
  pose proof (skip_blank_lines_length rest) as Hlen. rewrite E in Hlen.
  apply (Hcue l rest _ _ c rest'); [done|done| |].
  - by apply skip_blank_lines_head in E.
  - apply (IH (length rest')); [cbn in *; lia|done].
Qed.

End VttProperties.

Section VttInvariants.

Variable py_int : string → option Z.

Local Abbreviation emitted := (emitted_utterance py_int).

Lemma vtt_speaker_length (text : string) :
  String.length (fst (vtt_speaker_content text)) < 50.
Proof.
  rewrite vtt_speaker_content_rule.
  destruct (PyStr.split_first ":" (PyStr.strip text)) as [[before after]|];
    [|cbn; lia].
  destruct (Nat.ltb_spec (String.length (PyStr.strip before)) 50); cbn; lia.
Qed.

Lemma vtt_caption_utterance_emitted (c : caption) :
  Forall emitted (vtt_caption_utterance py_int c)
  ∧ length (vtt_caption_utterance py_int c) ≤ 1.
Proof.
  unfold vtt_caption_utterance.
  pose proof (vtt_speaker_length (cap_text c)) as Hlen.
  destruct (vtt_speaker_content (cap_text c)) as [speaker content].
  destruct (String.eqb_spec content "") as [|Hne]; [split; [constructor|cbn; lia]|].
  split; [|done]. constructor; [|constructor]. by repeat split.
Qed.


Lemma fallback_cue_utterance_emitted (start_time end_time line : string) :
  Forall emitted (fallback_cue_utterance py_int start_time end_time line)
  ∧ length (fallback_cue_utterance py_int start_time end_time line) ≤ 1.
Proof.
  apply (vtt_caption_utterance_emitted (Caption start_time end_time line)).
Qed.

End VttInvariants.

(** Every utterance emitted by [parse_vtt], on the primary path and on the
    fallback path, has a non-empty content, a speaker label shorter than 50
    characters, times converted from its time strings and a duration equal
    to their difference; the primary path emits at most one utterance per
    cue and the fallback path at most one per two lines. *)
Theorem parse_vtt_utterances
    (py_int : string → option Z) (library : result (list caption))
    (file_content : string) :
  Forall (emitted_utterance py_int) (parse_vtt py_int library file_content)
  ∧ match library with
    | Ok cues => length (parse_vtt py_int library file_content) ≤ length cues
    | Raise _ =>
        2 * length (parse_vtt py_int library file_content)
        ≤ length (PyStr.split "010" file_content)
    end.
Proof.
  destruct library as [cues|e]; cbn [parse_vtt].
  - induction cues as [|c cues [IHall IHlen]]; [by split|].
    cbn [flat_map]. destruct (vtt_caption_utterance_emitted py_int c) as [Hc Hlen].
    split; [by apply Forall_app|]. rewrite length_app. cbn. lia.
  - unfold parse_vtt_fallback.
    apply (parse_vtt_fallback_lines_ind py_int
             (λ lines out, Forall (emitted_utterance py_int) out
                           ∧ 2 * length out ≤ length lines)).
    + by split.
    + intros l rest out [Hall Hlen]. split; [done|]. cbn. lia.
    + intros l rest _. split; [constructor|cbn; lia].
    + intros l rest start_time end_time c rest' out _ Hskip _ [Hall Hlen].
      destruct (fallback_cue_utterance_emitted py_int start_time end_time c)
        as [Hc Hone].
      split; [by apply Forall_app|].
      pose proof (skip_blank_lines_length rest) as Hrest. rewrite Hskip in Hrest.
      rewrite length_app. cbn in *. lia.
Qed.

Lemma contains_empty (s : string) : PyStr.contains "" s = true.
Proof. destruct s; by cbn. Qed.

Lemma contains_in_empty (needle : string) :
  PyStr.contains needle "" = true → needle = "".
Proof. by destruct needle. Qed.

Lemma contains_cons (needle : string) (c : ascii) (s : string) :
  PyStr.contains needle s = true → PyStr.contains needle (String c s) = true.
Proof. intros H. cbn [PyStr.contains]. rewrite H. apply orb_true_r. Qed.

Lemma lstrip_suffix (s : string) : ∃ w, s = w +:+ PyStr.lstrip s.
Proof.
  induction s as [|c s [w IH]]; [by exists ""|]. cbn [PyStr.lstrip].
  destruct (PyStr.is_space c); [|by exists ""].
  exists (String c w). by rewrite str_app_cons, <- IH.
Qed.

Lemma rstrip_prefix (s : string) : ∃ w, s = PyStr.rstrip s +:+ w.
Proof.
  unfold PyStr.rstrip. destruct (lstrip_suffix (String.rev s)) as [w Hw].
  exists (String.rev w).
  by rewrite <- str_rev_append, <- Hw, str_rev_involutive.
Qed.

(** What is found in trimmed text is found in the text. *)
Lemma contains_strip (needle s : string) :
  PyStr.contains needle (PyStr.strip s) = true → PyStr.contains needle s = true.
Proof.
  unfold PyStr.strip. intros H.
  destruct (rstrip_prefix (PyStr.lstrip s)) as [w Hw].
  destruct (lstrip_suffix s) as [w' Hw'].
  rewrite Hw'. apply contains_app_r. rewrite Hw. by apply contains_app_l.
Qed.

Lemma split_head_prefix (sep : ascii) (s : string) : ∀ w ws,
  PyStr.split sep s = w :: ws → ∃ r, s = w +:+ r.
Proof.
  induction s as [|c s IH]; intros w ws; cbn [PyStr.split].
  { intros [= <- <-]. by exists "". }
  destruct (Ascii.eqb c sep).
  { intros [= <- <-]. by exists (String c s). }
  destruct (PyStr.split sep s) as [|w0 ws0] eqn:E.
  - intros [= <- <-]. pose proof (split_length sep s) as Hlen.
    rewrite E in Hlen. done.
  - intros [= <- <-]. destruct (IH w0 ws0 eq_refl) as [r ->].
    exists r. by rewrite str_app_cons.
Qed.

(** What is found in a line of a text is found in the text. *)
Lemma contains_split_elem (needle : string) (sep : ascii) (s : string) : ∀ l,
  l ∈ PyStr.split sep s →
  PyStr.contains needle l = true → PyStr.contains needle s = true.
Proof.
  induction s as [|c s IH]; intros l; cbn [PyStr.split].
  { by intros ->%list_elem_of_singleton. }
  destruct (Ascii.eqb c sep).
  { intros [->|Hin]%elem_of_cons Hl.
    - apply contains_in_empty in Hl as ->. apply contains_empty.
    - apply contains_cons. by apply (IH l). }
  destruct (PyStr.split sep s) as [|w ws] eqn:E.
  { intros ->%list_elem_of_singleton Hl.
    pose proof (split_length sep s) as Hlen. rewrite E in Hlen. done. }
  intros [->|Hin]%elem_of_cons Hl.
  - destruct (split_head_prefix sep s w ws E) as [r ->].
    rewrite <- str_app_cons. by apply contains_app_l.
  - apply contains_cons. apply (IH l); [|done]. by right.
Qed.

(** A file in which "-->" does not occur gives no utterance on the
    fallback path. *)
Theorem fallback_without_time_range
    (py_int : string → option Z) (e file_content : string) :
  PyStr.contains "-->" file_content = false →
  parse_vtt py_int (Raise e) file_content = [].
Proof.
  intros Hnone. cbn [parse_vtt]. unfold parse_vtt_fallback.
  assert (∀ l, l ∈ PyStr.split "010" file_content →
               PyStr.contains "-->" (PyStr.strip l) = false) as Hlines.
  { intros l Hl. destruct (PyStr.contains "-->" (PyStr.strip l)) eqn:E; [|done].
    apply contains_strip in E.
    apply (contains_split_elem _ _ _ _ Hl) in E. congruence. }
  revert Hlines.
  apply (parse_vtt_fallback_lines_ind py_int
           (λ lines out,
              (∀ l, l ∈ lines → PyStr.contains "-->" (PyStr.strip l) = false) →
              out = [])).
  - done.
  - intros l rest out IH Hall. apply IH. intros l' Hl'. apply Hall. by right.
  - done.
  - intros l rest start_time end_time c rest' out Harrow _ _ _ Hall.
    rewrite (Hall l) in Harrow; [done|by left].
Qed.

Lemma fallback_without_time_range_witness :
  parse_vtt Sample.py_int (Raise "Invalid format") "Ana: hello" = [].
Proof. by apply fallback_without_time_range. Defined.
(** ** The fallback parser on a caption file *)

Lemma no_space_no_newline (s : string) :
  no_space s = true → str_count "010" s = 0.
Proof.
  induction s as [|c s IH]; [done|]. cbn [no_space str_count].
  intros [Hc Hs]%andb_true_iff.
  destruct (Ascii.eqb_spec c "010") as [->|_]; [done|]. by rewrite IH.
Qed.

Lemma join_cons (sep s : string) (l : list string) :
  l ≠ [] → PyStr.join sep (s :: l) = s +:+ sep +:+ PyStr.join sep l.
Proof. by destruct l. Qed.

(** Lines joined by newlines are found again by splitting at newlines. *)
Lemma split_join (lines : list string) :
  lines ≠ [] → Forall (λ l, str_count "010" l = 0) lines →
  PyStr.split "010" (PyStr.join (String "010" "") lines) = lines.
Proof.
  induction lines as [|s lines IH]; [done|]. intros _ Hall.
  apply Forall_cons in Hall as [Hs Hall].
  destruct lines as [|s' lines]; [by apply split_no_sep|].
  rewrite join_cons by done. rewrite str_app_cons, str_app_nil_l.
  rewrite split_app by done. by rewrite IH.
Qed.

Lemma prefix_arrow_no_space (c : ascii) (s : string) :
  PyStr.is_space c = false → String.prefix " --> " (String c s) = false.
Proof.
  intros Hc. cbn [String.prefix].
  destruct (ascii_dec " " c) as [<-|]; [by vm_compute in Hc|done].
Qed.

Lemma split_str_no_space (b : string) :
  no_space b = true → split_str_go " --> " 0 b = [b].
Proof.
  induction b as [|c b IH]; [done|]. cbn [no_space].
  intros [Hc%negb_true_iff Hb]%andb_true_iff.
  cbn [split_str_go]. rewrite (prefix_arrow_no_space c b Hc).
  by rewrite IH.
Qed.

Lemma prefix_app (a b : string) : String.prefix a (a +:+ b) = true.
Proof.
  induction a as [|c a IH]; [by destruct ("" +:+ b)|].
  rewrite str_app_cons. cbn [String.prefix].
  by destruct (ascii_dec c c).
Qed.

Lemma split_str_go_skip (sep a b : string) :
  split_str_go sep (String.length a) (a +:+ b) = split_str_go sep 0 b.
Proof. induction a as [|c a IH]; [done|]. by rewrite str_app_cons. Qed.

Lemma split_str_go_sep (c : ascii) (sep b : string) :
  split_str_go (String c sep) 0 (String c sep +:+ b)
  = "" :: split_str_go (String c sep) 0 b.
Proof.
  rewrite str_app_cons. cbn [split_str_go].
  rewrite <- str_app_cons, prefix_app.
  replace (String.length (String c sep) - 1) with (String.length sep)
    by (cbn [String.length]; lia).
  by rewrite split_str_go_skip.
Qed.

(** A time-range line splits into its two times. *)
Lemma split_str_between (a b : string) :
  no_space a = true → no_space b = true →
  split_str " --> " (a +:+ " --> " +:+ b) = [a; b].
Proof.
  intros Ha Hb. unfold split_str.
  induction a as [|c a IH].
  - by rewrite str_app_nil_l, split_str_go_sep, split_str_no_space.
  - cbn [no_space] in Ha. apply andb_true_iff in Ha as [Hc%negb_true_iff Ha].
    rewrite str_app_cons. cbn [split_str_go].
    rewrite (prefix_arrow_no_space c _ Hc). by rewrite IH.
Qed.

Section FallbackOnFile.

Variable py_int : string → option Z.

Lemma fallback_cue_lines (c : caption) (rest : list string) :
  well_formed_cue c →
  parse_vtt_fallback_lines py_int (cue_lines c ++ rest)
  = vtt_caption_utterance py_int c ++ parse_vtt_fallback_lines py_int rest.
Proof.
  destruct c as [start_time end_time text].
  intros (Hs & Hss & Hsc & He & Hes & Htext & Hline).
  cbn [cap_start cap_end cap_text] in *.
  unfold cue_lines. cbn [cap_start cap_end cap_text app].
  rewrite parse_vtt_fallback_lines_cons. cbn zeta.
  rewrite strip_between by done.
  assert (PyStr.contains "-->" (start_time +:+ " --> " +:+ end_time) = true) as ->.
  { apply contains_app_r. by apply contains_app_l. }
  assert (PyStr.contains ":" (start_time +:+ " --> " +:+ end_time) = true) as ->.
  { by apply contains_app_l. }
  cbn [andb]. rewrite split_str_between by done.
  rewrite !strip_no_space by done.
  cbn [skip_blank_lines].
  destruct (String.eqb_spec (PyStr.strip text) "") as [|_]; [done|].
  by rewrite (parse_vtt_fallback_lines_cons _ "").
Qed.

End FallbackOnFile.

(** On a caption file made of the header and of cues written as a
    time-range line, a text line and a blank line, the fallback parser
    gives the utterances that the primary loop gives for cues with these
    times and texts. *)
Theorem fallback_agrees_on_caption_file
    (py_int : string → option Z) (e : string) (cues : list caption) :
  Forall well_formed_cue cues →
  parse_vtt py_int (Raise e) (render_vtt cues)
  = parse_vtt py_int (Ok cues) (render_vtt cues).
Proof.
  intros Hcues. cbn [parse_vtt]. unfold parse_vtt_fallback, render_vtt.
  rewrite split_join.
  - rewrite !parse_vtt_fallback_lines_cons. cbn zeta.
    change (PyStr.contains "-->" (PyStr.strip "WEBVTT")) with false.
    change (PyStr.contains "-->" (PyStr.strip "")) with false.
    cbn [andb].
    induction Hcues as [|c cues Hc _ IH]; [done|].
    cbn [flat_map]. rewrite fallback_cue_lines by done.
    by rewrite IH.
  - done.
  - repeat (constructor; [done|]).
    induction Hcues as [|c cues Hc _ IH]; [constructor|].
    destruct Hc as (_ & Hss & _ & _ & Hes & _ & Hline).
    cbn [flat_map cue_lines app].
    repeat (constructor; [|]); [|done|done|done].
    rewrite !str_count_app, (no_space_no_newline _ Hss),
      (no_space_no_newline _ Hes). done.
Qed.

Lemma fallback_agrees_on_caption_file_witness :
  parse_vtt Sample.py_int (Raise "Invalid format")
    (render_vtt [Fixture.cue "00:00:01.000" "00:00:06.000" "Ana: hello"])
  = parse_vtt Sample.py_int
      (Ok [Fixture.cue "00:00:01.000" "00:00:06.000" "Ana: hello"])
      (render_vtt [Fixture.cue "00:00:01.000" "00:00:06.000" "Ana: hello"]).
Proof.
  apply fallback_agrees_on_caption_file.
  constructor; [|constructor]. by repeat split.
Defined.

(** ** Word documents *)

Lemma lstrip_head (s : string) (c : ascii) (r : string) :
  PyStr.lstrip s = String c r → PyStr.is_space c = false.
Proof.
  induction s as [|x s IH]; [done|]. cbn [PyStr.lstrip].
  destruct (PyStr.is_space x) eqn:E; [done|]. by intros [= <- <-].
Qed.

Lemma strip_head (s : string) (c : ascii) (r : string) :
  PyStr.strip s = String c r → PyStr.is_space c = false.
Proof.
  unfold PyStr.strip. intros H.
  destruct (rstrip_prefix (PyStr.lstrip s)) as [w Hw].
  rewrite H, str_app_cons in Hw. by apply lstrip_head in Hw.
Qed.

Lemma lstrip_app_not_space (a : string) (c : ascii) (b : string) :
  PyStr.is_space c = false → PyStr.lstrip (a +:+ String c b) ≠ "".
Proof.
  intros Hc. induction a as [|x a IH].
  - rewrite str_app_nil_l. cbn [PyStr.lstrip]. by rewrite Hc.
  - rewrite str_app_cons. cbn [PyStr.lstrip]. by destruct (PyStr.is_space x).
Qed.

Lemma str_rev_nonempty (s : string) : s ≠ "" → String.rev s ≠ "".
Proof.
  intros Hs Hrev. apply Hs.
  by rewrite <- (str_rev_involutive s), Hrev.
Qed.

(** Text that starts with a character other than whitespace is not blank. *)
Lemma strip_not_blank (c : ascii) (s : string) :
  PyStr.is_space c = false → PyStr.strip (String c s) ≠ "".
Proof.
  intros Hc. unfold PyStr.strip, PyStr.rstrip. cbn [PyStr.lstrip]. rewrite Hc.
  apply str_rev_nonempty. rewrite str_rev_cons.
  by apply lstrip_app_not_space.
Qed.

(** On a trimmed paragraph, the label and the body of a speaker line are
    not blank. *)
Lemma speaker_line_not_blank (paragraph label body : string) :
  speaker_line (PyStr.strip paragraph) = Some (label, body) →
  PyStr.strip label ≠ "" ∧ PyStr.strip body ≠ "".
Proof.
  unfold speaker_line.
  destruct (PyStr.split_first ":" (PyStr.strip paragraph))
    as [[before after]|] eqn:Hsplit; [|done].
  destruct (String.eqb_spec before "") as [|Hlabel]; [done|].
  destruct (String.eqb_spec (PyStr.lstrip after) "") as [|Hbody]; [done|].
  cbn [orb]. destruct (str_count "010" (PyStr.lstrip after) =? 0); [|done].
  intros [= <- <-]. split.
  - destruct before as [|c before]; [done|].
    apply split_first_spec in Hsplit as [Htext _].
    rewrite str_app_cons in Htext. apply strip_head in Htext.
    by apply strip_not_blank.
  - destruct (PyStr.lstrip after) as [|c b] eqn:E; [done|].
    apply lstrip_head in E. by apply strip_not_blank.
Qed.

Lemma join_not_empty (sep first : string) (more : list string) :
  first ≠ "" → PyStr.join sep (first :: more) ≠ "".
Proof.
  intros Hfirst. destruct more as [|s more]; [done|].
  cbn [PyStr.join]. destruct first as [|c first]; [done|].
  by rewrite str_app_cons.
Qed.

Section DocxProperties.

Variable fresh : nat → string.

Local Abbreviation step := (docx_step fresh).
Local Abbreviation flush := (docx_flush fresh).

(** The loop from a state in which a speaker has been read. *)
Lemma docx_loop_speaker (paragraphs : list string) : ∀ speaker texts utterances,
  speaker ≠ "" → texts ≠ [] →
  flush (fold_left step paragraphs (DocxState (Some speaker) texts utterances))
  = utterances
    ++ docx_utterance (fresh (length utterances))
         (speaker, texts ++ docx_continuation paragraphs)
    :: imap (λ i turn, docx_utterance (fresh (S (length utterances) + i)) turn)
         (docx_turns paragraphs).
Proof.
  induction paragraphs as [|p ps IH]; intros speaker texts utterances Hs Ht.
  { cbn [fold_left docx_continuation docx_turns imap]. unfold docx_flush.
    cbn [ds_current_speaker ds_current_content ds_utterances].
    destruct speaker as [|c s]; [done|]. destruct texts as [|t ts]; [done|].
    by rewrite app_nil_r. }
  cbn [fold_left docx_continuation docx_turns]. unfold docx_step at 2.
  cbn zeta. destruct (String.eqb_spec (PyStr.strip p) "") as [Hblank|Htext].
  { rewrite Hblank. change (speaker_line "") with (@None (string * string)).
    by apply IH. }
  destruct (speaker_line (PyStr.strip p)) as [[label body]|] eqn:Hline.
  - destruct (speaker_line_not_blank _ _ _ Hline) as [Hlabel Hbody].
    cbn [ds_current_speaker ds_current_content ds_utterances].
    rewrite IH by done.
    assert (flush (DocxState (Some speaker) texts utterances)
            = utterances ++ [docx_utterance (fresh (length utterances))
                               (speaker, texts)]) as ->.
    { unfold docx_flush.
      cbn [ds_current_speaker ds_current_content ds_utterances].
      destruct speaker as [|c s]; [done|]. by destruct texts. }
    rewrite length_app, app_nil_r, <- app_assoc. cbn [length app imap].
    rewrite Nat.add_1_r, Nat.add_0_r. do 3 f_equal.
    apply imap_ext. intros i turn _. cbn. by rewrite Nat.add_succ_r.
  - cbn [ds_current_speaker ds_current_content ds_utterances].
    rewrite IH; [|done|by destruct texts]. by rewrite <- app_assoc.
Qed.

(** The loop before a speaker has been read: what was read so far is
    dropped at the first speaker line. *)
Lemma docx_loop_start (paragraphs : list string) : ∀ texts,
  flush (fold_left step paragraphs (DocxState None texts []))
  = imap (λ i turn, docx_utterance (fresh i) turn) (docx_turns paragraphs).
Proof.
  induction paragraphs as [|p ps IH]; intros texts; [done|].
  cbn [fold_left docx_turns]. unfold docx_step at 2.
  cbn zeta. destruct (String.eqb_spec (PyStr.strip p) "") as [Hblank|Htext].
  { rewrite Hblank. change (speaker_line "") with (@None (string * string)).
    by apply IH. }
  destruct (speaker_line (PyStr.strip p)) as [[label body]|] eqn:Hline.
  - destruct (speaker_line_not_blank _ _ _ Hline) as [Hlabel Hbody].
    cbn [ds_current_speaker ds_current_content ds_utterances].
    change (flush (DocxState None texts [])) with (@nil parsed_utterance).
    by rewrite docx_loop_speaker.
  - cbn [ds_current_speaker ds_current_content ds_utterances]. apply IH.
Qed.

Lemma docx_turns_not_blank (paragraphs : list string) :
  Forall (λ turn : string * list string,
            turn.1 ≠ "" ∧ PyStr.join " " turn.2 ≠ "")
         (docx_turns paragraphs).
Proof.
  induction paragraphs as [|p ps IH]; [constructor|]. cbn [docx_turns].
  destruct (speaker_line (PyStr.strip p)) as [[label body]|] eqn:Hline; [|done].
  destruct (speaker_line_not_blank _ _ _ Hline) as [Hlabel Hbody].
  constructor; [|done]. split; [done|]. by apply join_not_empty.
Qed.

End DocxProperties.

(** [parse_docx] emits one utterance for every paragraph that is a speaker
    line, in the order of the document: its speaker is the trimmed label,
    its content is the body of the line and the paragraphs that follow, up
    to the next speaker line, joined by single spaces, blank paragraphs
    left out; it has no times and the identifiers are drawn in order.
    Speaker and content are never empty, and paragraphs before the first
    speaker line are in no utterance.  A document that the library cannot
    open gives a [ValueError] with the library's message. *)
Theorem parse_docx_turns (fresh : nat → string) (document : result (list string)) :
  match document with
  | Ok paragraphs =>
      parse_docx fresh document
      = Ok (imap (λ i turn, docx_utterance (fresh i) turn) (docx_turns paragraphs))
      ∧ Forall (λ u, pu_speaker u ≠ "" ∧ pu_content u ≠ ""
                     ∧ pu_start_time u = None ∧ pu_end_time u = None
                     ∧ pu_duration u = None)
               (docx_paragraphs fresh paragraphs)
  | Raise e => parse_docx fresh document = Raise ("Invalid DOCX format: " +:+ e)
  end.
Proof.
  destruct document as [paragraphs|e]; [|done].
  cbn [parse_docx]. unfold docx_paragraphs. rewrite docx_loop_start.
  split; [done|].
  apply Forall_lookup. intros i u Hu.
  rewrite list_lookup_imap in Hu.
  destruct (docx_turns paragraphs !! i) as [turn|] eqn:Hturn; [|done].
  injection Hu as <-.
  pose proof (docx_turns_not_blank paragraphs) as Hall.
  rewrite Forall_lookup in Hall. destruct (Hall i turn Hturn) as [Hs Hc].
  by repeat split.
Qed.
